(** * Manufacturing orders of a base: [Savegame/Production.cpp]

    A shallow embedding of the production order ([Production]) and of its
    advancement algorithm [step], followed by the properties of the
    specification that were checked against it.

    Conventions of the embedding.
    - C++ [int] and [int64_t] values are integers of [Z]; [/] on [int] is the
      truncating division [Z.quot].  Signed overflow is undefined behaviour
      in C++, so the embedding describes the runs without overflow.
    - [std::map<std::string,int>] and the item container are [gmap string Z];
      a rule object ([RuleItem], [RuleCraft]) is identified by its type name,
      as the rule catalog holds one object per type.
    - The methods take the order, the base and the saved game by pointer and
      mutate them; here they are the three components of a [State] that is
      passed along, together with the state of the global generator [RNG].
    - Collaborators whose code is outside [Production.cpp] are the fields of
      the class [Collaborators]. *)

From Stdlib Require Import ZArith List Bool Lia.
From stdpp Require Import gmap strings list fin_maps.

Open Scope Z_scope.

(** ** Rule data *)

(** Only [BT_NONE] is told apart by the production code. *)
Inductive BattleType := BT_NONE | BT_OTHER.

Record RuleItem := {
  item_type : string;
  item_battleType : BattleType }.

Record RuleCraft := { craft_type : string }.

Record RuleSoldier := { soldier_type : string }.

Record RuleManufacture := {
  getName : string;
  getManufactureTime : Z;
  getManufactureCost : Z;
  getRequiredItems : list (RuleItem * Z);
  getRequiredCrafts : list (RuleCraft * Z);
  getProducedCraft : option RuleCraft;
  getProducedItems : list (RuleItem * Z);
  getRandomProducedItems : list (Z * list (RuleItem * Z));
  getSpawnedPersonType : string;
  getSpawnedPersonName : string;
  getPoints : Z }.

#[global] Instance BattleType_eq_dec : EqDecision BattleType.
Proof. solve_decision. Defined.
#[global] Instance RuleItem_eq_dec : EqDecision RuleItem.
Proof. solve_decision. Defined.
#[global] Instance RuleCraft_eq_dec : EqDecision RuleCraft.
Proof. solve_decision. Defined.

(** ** The order *)

Record Production := {
  _rules : RuleManufacture;
  _amount : Z;
  _infinite : bool;
  _timeSpent : Z;
  _engineers : Z;
  _sell : bool;
  _randomProductionInfo : gmap string Z }.

Inductive productionProgress_e :=
| PROGRESS_NOT_COMPLETE
| PROGRESS_COMPLETE
| PROGRESS_NOT_ENOUGH_MONEY
| PROGRESS_NOT_ENOUGH_MATERIALS
| PROGRESS_NOT_ENOUGH_LIVING_SPACE.

Definition getAmountTotal (p : Production) : Z := _amount p.
Definition getInfiniteAmount (p : Production) : bool := _infinite p.
Definition getTimeSpent (p : Production) : Z := _timeSpent p.
Definition getAssignedEngineers (p : Production) : Z := _engineers p.
Definition getSellItems (p : Production) : bool := _sell p.
Definition getRules (p : Production) : RuleManufacture := _rules p.

Definition setAmountTotal (amount : Z) (p : Production) : Production :=
  {| _rules := _rules p; _amount := amount; _infinite := _infinite p;
     _timeSpent := _timeSpent p; _engineers := _engineers p; _sell := _sell p;
     _randomProductionInfo := _randomProductionInfo p |}.

Definition setInfiniteAmount (inf : bool) (p : Production) : Production :=
  {| _rules := _rules p; _amount := _amount p; _infinite := inf;
     _timeSpent := _timeSpent p; _engineers := _engineers p; _sell := _sell p;
     _randomProductionInfo := _randomProductionInfo p |}.

Definition setTimeSpent (done : Z) (p : Production) : Production :=
  {| _rules := _rules p; _amount := _amount p; _infinite := _infinite p;
     _timeSpent := done; _engineers := _engineers p; _sell := _sell p;
     _randomProductionInfo := _randomProductionInfo p |}.

Definition setAssignedEngineers (engineers : Z) (p : Production) : Production :=
  {| _rules := _rules p; _amount := _amount p; _infinite := _infinite p;
     _timeSpent := _timeSpent p; _engineers := engineers; _sell := _sell p;
     _randomProductionInfo := _randomProductionInfo p |}.

Definition setSellItems (sell : bool) (p : Production) : Production :=
  {| _rules := _rules p; _amount := _amount p; _infinite := _infinite p;
     _timeSpent := _timeSpent p; _engineers := _engineers p; _sell := sell;
     _randomProductionInfo := _randomProductionInfo p |}.

Definition setRandomProductionInfo (info : gmap string Z) (p : Production)
  : Production :=
  {| _rules := _rules p; _amount := _amount p; _infinite := _infinite p;
     _timeSpent := _timeSpent p; _engineers := _engineers p; _sell := _sell p;
     _randomProductionInfo := info |}.

(** [Production::getAmountProduced]. *)
Definition getAmountProduced (p : Production) : Z :=
  if 0 <? getManufactureTime (_rules p)
  then Z.quot (_timeSpent p) (getManufactureTime (_rules p))
  else _amount p.

(** [Production::isQueuedOnly]. *)
Definition isQueuedOnly (p : Production) : bool :=
  (getTimeSpent p =? 0) && (getAssignedEngineers p =? 0).

(** ** The base, the saved game and the global state *)

Record Craft := {
  craftRules : RuleCraft;
  craftId : Z;
  craftStatus : string }.

Record Soldier := {
  soldierRules : RuleSoldier;
  soldierNationality : Z;
  soldierId : Z;
  soldierName : string }.

(** [Transfer]: the hours until arrival and what arrives. *)
Record Transfer := {
  transferHours : Z;
  transferScientists : Z;
  transferEngineers : Z;
  transferSoldier : option Soldier }.

(** [livingQuarters] and [personnel] stand for the facilities and the staff
    lists of the base, which the production code never reads itself. *)
Record Base := {
  getStorageItems : gmap string Z;
  getCrafts : list Craft;
  getTransfers : list Transfer;
  livingQuarters : Z;
  personnel : Z }.

Record SavedGame := {
  getFunds : Z;
  researchScore : Z;
  ids : gmap string Z }.

Record State := {
  prod : Production;
  base : Base;
  game : SavedGame;
  rng : Z }.

Definition setStorageItems (s : gmap string Z) (b : Base) : Base :=
  {| getStorageItems := s; getCrafts := getCrafts b;
     getTransfers := getTransfers b; livingQuarters := livingQuarters b;
     personnel := personnel b |}.

Definition setCrafts (cs : list Craft) (b : Base) : Base :=
  {| getStorageItems := getStorageItems b; getCrafts := cs;
     getTransfers := getTransfers b; livingQuarters := livingQuarters b;
     personnel := personnel b |}.

Definition setTransfers (ts : list Transfer) (b : Base) : Base :=
  {| getStorageItems := getStorageItems b; getCrafts := getCrafts b;
     getTransfers := ts; livingQuarters := livingQuarters b;
     personnel := personnel b |}.

Definition setFunds (f : Z) (g : SavedGame) : SavedGame :=
  {| getFunds := f; researchScore := researchScore g; ids := ids g |}.

(** [SavedGame::addResearchScore]. *)
Definition addResearchScore (pts : Z) (g : SavedGame) : SavedGame :=
  {| getFunds := getFunds g; researchScore := researchScore g + pts;
     ids := ids g |}.

Definition withProd (p : Production) (st : State) : State :=
  {| prod := p; base := base st; game := game st; rng := rng st |}.

Definition withBase (b : Base) (st : State) : State :=
  {| prod := prod st; base := b; game := game st; rng := rng st |}.

Definition withGame (g : SavedGame) (st : State) : State :=
  {| prod := prod st; base := base st; game := g; rng := rng st |}.

Definition withRng (s : Z) (st : State) : State :=
  {| prod := prod st; base := base st; game := game st; rng := s |}.

(** ** The item container *)

(** Modelled from the spec: [ItemContainer] (section 6, item stock:
    [getItem], [addItem], [removeItem]) is not among the sources.  A stock
    maps an item to its quantity, an absent item counting for none;
    [addItem] adds to the quantity, [removeItem] takes the quantity out of
    what is stocked and drops the entry when nothing would be left. *)
Definition getItem (i : RuleItem) (s : gmap string Z) : Z :=
  default 0 (s !! item_type i).

Definition addItem (i : RuleItem) (qty : Z) (s : gmap string Z)
  : gmap string Z :=
  <[item_type i := default 0 (s !! item_type i) + qty]> s.

Definition removeItem (i : RuleItem) (qty : Z) (s : gmap string Z)
  : gmap string Z :=
  match s !! item_type i with
  | None => s
  | Some n => if qty <? n then <[item_type i := n - qty]> s
              else delete (item_type i) s
  end.

(** [_randomProductionInfo[type] += qty] on a [std::map<std::string,int>]:
    an absent entry is created at zero first. *)
Definition tallyAdd (type : string) (qty : Z) (m : gmap string Z)
  : gmap string Z :=
  <[type := default 0 (m !! type) + qty]> m.

(** Modelled from the spec: [Base::removeCraft] is not among the sources;
    section 4.2 has the craft found by [startItem] detached from the roster
    and destroyed.  The search of [startItem] stops at the first craft whose
    rules are the required ones. *)
Fixpoint removeFirstCraft (rc : RuleCraft) (cs : list Craft) : list Craft :=
  match cs with
  | [] => []
  | c :: rest =>
      if decide (craftRules c = rc) then rest
      else c :: removeFirstCraft rc rest
  end.

(** ** Collaborators outside [Production.cpp] *)

Class Collaborators := {
  (** [RuleManufacture::haveEnoughMoneyForOneMoreUnit(funds)] *)
  ruleHaveEnoughMoney : RuleManufacture -> Z -> bool;
  (** [RuleItem::getSellCostAdjusted(base, save)] *)
  getSellCostAdjusted : RuleItem -> Base -> SavedGame -> Z;
  (** [Base::getAvailableQuarters], [Base::getUsedQuarters] *)
  getAvailableQuarters : Base -> Z;
  getUsedQuarters : Base -> Z;
  (** [Base::getCraftCountForProduction(rule)] *)
  getCraftCountForProduction : Base -> RuleCraft -> Z;
  (** [SavedGame::getId(name)]: the next identifier, and the game after *)
  getId : SavedGame -> string -> Z * SavedGame;
  (** [new Craft(rule, base, id)], [initFixedWeapons], [checkup] *)
  newCraft : RuleCraft -> Base -> Z -> Craft;
  initFixedWeapons : Craft -> Craft;
  checkup : Craft -> Craft;
  (** [Craft::reuseItem(item)] *)
  reuseItem : Craft -> RuleItem -> Craft;
  (** [RNG::generate(min, max)] on the generator state *)
  generate : Z -> Z -> Z -> Z * Z;
  (** [Mod::getSoldier(type)], null when there is no such rule *)
  getSoldier : string -> option RuleSoldier;
  (** [SavedGame::selectSoldierNationalityByLocation(mod, rule, base)] *)
  selectSoldierNationalityByLocation :
    SavedGame -> RuleSoldier -> Base -> Z -> Z * Z;
  (** [Mod::genSoldier(save, rule, nationality)] *)
  genSoldier : SavedGame -> RuleSoldier -> Z -> Z -> Soldier * SavedGame * Z;
  (** [Soldier::load(template, ...)] with the template of the recipe *)
  loadSoldierTemplate : RuleManufacture -> Soldier -> Soldier;
  (** [Language::getString(id)] *)
  getString : string -> string;
  (** [Soldier::genName] *)
  genName : Soldier -> Z -> Soldier * Z }.

Definition setName (name : string) (s : Soldier) : Soldier :=
  {| soldierRules := soldierRules s;
     soldierNationality := soldierNationality s;
     soldierId := soldierId s; soldierName := name |}.

(** ** The operations of [Production] *)

Section Operations.
Context `{Collaborators}.

(** [Production::haveEnoughMoneyForOneMoreUnit]. *)
Definition haveEnoughMoneyForOneMoreUnit (p : Production) (g : SavedGame)
  : bool :=
  ruleHaveEnoughMoney (_rules p) (getFunds g).

(** [Production::haveEnoughLivingSpaceForOneMoreUnit]. *)
Definition haveEnoughLivingSpaceForOneMoreUnit (p : Production) (b : Base)
  : bool :=
  if negb (String.eqb (getSpawnedPersonType (_rules p)) EmptyString)
  then
    if getAvailableQuarters b <? getUsedQuarters b then false else true
  else true.

(** [Production::haveEnoughMaterialsForOneMoreUnit]: the two loops return
    [false] at the first entry that is short. *)
Definition haveEnoughMaterialsForOneMoreUnit (p : Production) (b : Base)
  : bool :=
  forallb (fun i => negb (getItem (fst i) (getStorageItems b) <? snd i))
          (getRequiredItems (_rules p))
  && forallb (fun i => negb (getCraftCountForProduction b (fst i) <? snd i))
             (getRequiredCrafts (_rules p)).

(** [Production::startItem]. *)
Definition startItem (st : State) : State :=
  let rules := _rules (prod st) in
  let g := setFunds (getFunds (game st) - getManufactureCost rules) (game st) in
  let storage :=
    fold_left (fun s i => removeItem (fst i) (snd i) s)
              (getRequiredItems rules) (getStorageItems (base st)) in
  let roster :=
    fold_left (fun cs i => removeFirstCraft (fst i) cs)
              (getRequiredCrafts rules) (getCrafts (base st)) in
  withGame g (withBase (setCrafts roster (setStorageItems storage (base st))) st).

(** [Production::refundItem]. *)
Definition refundItem (st : State) : State :=
  let rules := _rules (prod st) in
  let g := setFunds (getFunds (game st) + getManufactureCost rules) (game st) in
  let storage :=
    fold_left (fun s pair => addItem (fst pair) (snd pair) s)
              (getRequiredItems rules) (getStorageItems (base st)) in
  withGame g (withBase (setStorageItems storage (base st)) st).

(** *** The effects of one completed unit (body of the loop of [step]) *)

(** [for (Craft* c : b->getCrafts()) c->reuseItem(item)]. *)
Definition reuseItemAll (item : RuleItem) (b : Base) : Base :=
  setCrafts (map (fun c => reuseItem c item) (getCrafts b)) b.

(** The new craft appended to the roster. *)
Definition produceCraft (ruleCraft : RuleCraft) (st : State) : State :=
  let '(id, g) := getId (game st) (craft_type ruleCraft) in
  let craft := checkup (initFixedWeapons (newCraft ruleCraft (base st) id)) in
  withGame g (withBase (setCrafts (getCrafts (base st) ++ [craft]) (base st)) st).

(** One pair of [getProducedItems]: sold, or stocked and tallied. *)
Definition produceItem (st : State) (i : RuleItem * Z) : State :=
  if getSellItems (prod st) then
    let adjustedSellValue :=
      getSellCostAdjusted (fst i) (base st) (game st) * snd i in
    withGame (setFunds (getFunds (game st) + adjustedSellValue) (game st)) st
  else
    let b1 :=
      setStorageItems (addItem (fst i) (snd i) (getStorageItems (base st)))
                      (base st) in
    let p1 :=
      if negb (bool_decide (getRandomProducedItems (_rules (prod st)) = []))
      then setRandomProductionInfo
             (tallyAdd (item_type (fst i)) (snd i)
                       (_randomProductionInfo (prod st))) (prod st)
      else prod st in
    let b2 :=
      if bool_decide (item_battleType (fst i) = BT_NONE)
      then reuseItemAll (fst i) b1 else b1 in
    withProd p1 (withBase b2 st).

(** One pair of the drawn item set of the random manufacture. *)
Definition produceRandomItem (st : State) (i : RuleItem * Z) : State :=
  let b1 :=
    setStorageItems (addItem (fst i) (snd i) (getStorageItems (base st)))
                    (base st) in
  let p1 :=
    setRandomProductionInfo
      (tallyAdd (item_type (fst i)) (snd i) (_randomProductionInfo (prod st)))
      (prod st) in
  let b2 :=
    if bool_decide (item_battleType (fst i) = BT_NONE)
    then reuseItemAll (fst i) b1 else b1 in
  withProd p1 (withBase b2 st).

(** The sum of the weights, as the first loop of the random manufacture. *)
Definition totalWeightOf (sets : list (Z * list (RuleItem * Z))) : Z :=
  fold_left (fun totalWeight itemSet => totalWeight + fst itemSet) sets 0.

(** The second loop: the first set at which the running total reaches the
    roll is granted, and the loop is left. *)
Fixpoint randomLoop (sets : list (Z * list (RuleItem * Z)))
  (runningTotal roll : Z) (st : State) : State :=
  match sets with
  | [] => st
  | itemSet :: rest =>
      let runningTotal := runningTotal + fst itemSet in
      if roll <=? runningTotal
      then fold_left produceRandomItem (snd itemSet) st
      else randomLoop rest runningTotal roll st
  end.

Definition randomManufacture (st : State) : State :=
  let sets := getRandomProducedItems (_rules (prod st)) in
  if negb (bool_decide (sets = [])) then
    let totalWeight := totalWeightOf sets in
    let '(roll, seed) := generate 1 totalWeight (rng st) in
    randomLoop sets 0 roll (withRng seed st)
  else st.

Definition pushTransfer (t : Transfer) (st : State) : State :=
  withBase (setTransfers (getTransfers (base st) ++ [t]) (base st)) st.

(** Spawn persons (soldiers, engineers, scientists, ...). *)
Definition spawnPerson (st : State) : State :=
  let rules := _rules (prod st) in
  let spawnedPersonType := getSpawnedPersonType rules in
  if negb (String.eqb spawnedPersonType EmptyString) then
    if String.eqb spawnedPersonType "STR_SCIENTIST" then
      pushTransfer {| transferHours := 24; transferScientists := 1;
                      transferEngineers := 0; transferSoldier := None |} st
    else if String.eqb spawnedPersonType "STR_ENGINEER" then
      pushTransfer {| transferHours := 24; transferScientists := 0;
                      transferEngineers := 1; transferSoldier := None |} st
    else
      match getSoldier spawnedPersonType with
      | None => st
      | Some rule =>
          let '(nationality, seed1) :=
            selectSoldierNationalityByLocation (game st) rule (base st)
                                               (rng st) in
          let '(s, g, seed2) := genSoldier (game st) rule nationality seed1 in
          let s := loadSoldierTemplate rules s in
          let '(s, seed3) :=
            if negb (String.eqb (getSpawnedPersonName rules) EmptyString)
            then (setName (getString (getSpawnedPersonName rules)) s, seed2)
            else genName s seed2 in
          pushTransfer {| transferHours := 24; transferScientists := 0;
                          transferEngineers := 0; transferSoldier := Some s |}
                       (withRng seed3 (withGame g st))
      end
  else st.

Definition scorePoints (st : State) : State :=
  if negb (getPoints (_rules (prod st)) =? 0)
  then withGame (addResearchScore (getPoints (_rules (prod st))) (game st)) st
  else st.

(** Everything between [do {] and [count++]. *)
Definition produceUnit (st : State) : State :=
  let st1 :=
    match getProducedCraft (_rules (prod st)) with
    | Some ruleCraft => produceCraft ruleCraft st
    | None => fold_left produceItem (getProducedItems (_rules (prod st))) st
    end in
  scorePoints (spawnPerson (randomManufacture st1)).

(** *** The batch loop and [step] *)

(** How the [do ... while] loop is left: by a [return] of [step] from the
    middle of a batch, or through its condition. *)
Inductive LoopExit :=
| LoopReturn (status : productionProgress_e)
| LoopFallThrough.

(** The loop [do { ... count++; if (count < produced) {...} }
    while (count < produced)], entered with [count] units done.  Its result
    carries the final [count].  [fuel] bounds the iterations after the
    first one; [None] is an exhausted bound. *)
Fixpoint batchLoop (fuel : nat) (count produced : Z) (st : State)
  : option (LoopExit * Z * State) :=
  let st := produceUnit st in
  let count := count + 1 in
  if count <? produced then
    if negb (haveEnoughMoneyForOneMoreUnit (prod st) (game st))
    then Some (LoopReturn PROGRESS_NOT_ENOUGH_MONEY, count, st)
    else if negb (haveEnoughMaterialsForOneMoreUnit (prod st) (base st))
    then Some (LoopReturn PROGRESS_NOT_ENOUGH_MATERIALS, count, st)
    else
      match fuel with
      | O => None
      | S fuel => batchLoop fuel count produced (startItem st)
      end
  else Some (LoopFallThrough, count, st).

(** The size of the batch, [produced] in [step]. *)
Definition producedOf (p : Production) (done : Z) : Z :=
  if negb (getInfiniteAmount p)
  then Z.min (getAmountProduced p) (_amount p) - done
  else getAmountProduced p - done.

(** The part of [step] after the batch loop. *)
Definition stepTail (done : Z) (st : State)
  : productionProgress_e * State :=
  if (_amount (prod st) <=? getAmountProduced (prod st))
     && negb (getInfiniteAmount (prod st))
  then (PROGRESS_COMPLETE, st)
  else if done <? getAmountProduced (prod st) then
    if negb (haveEnoughMoneyForOneMoreUnit (prod st) (game st))
    then (PROGRESS_NOT_ENOUGH_MONEY, st)
    else if negb (haveEnoughLivingSpaceForOneMoreUnit (prod st) (base st))
    then (PROGRESS_NOT_ENOUGH_LIVING_SPACE, st)
    else if negb (haveEnoughMaterialsForOneMoreUnit (prod st) (base st))
    then (PROGRESS_NOT_ENOUGH_MATERIALS, st)
    else (PROGRESS_NOT_COMPLETE, startItem st)
  else (PROGRESS_NOT_COMPLETE, st).

(** The state after [_timeSpent += _engineers]. *)
Definition addLabor (st : State) : State :=
  withProd (setTimeSpent (_timeSpent (prod st) + _engineers (prod st))
                         (prod st)) st.

(** [Production::step]: the status returned and the state left behind. *)
Definition step (st : State) : option (productionProgress_e * State) :=
  let done := getAmountProduced (prod st) in
  let st := addLabor st in
  if done <? getAmountProduced (prod st) then
    let produced := producedOf (prod st) done in
    match batchLoop (Z.to_nat produced) 0 produced st with
    | None => None
    | Some (LoopReturn status, _, st) => Some (status, st)
    | Some (LoopFallThrough, _, st) => Some (stepTail done st)
    end
  else Some (stepTail done st).

End Operations.

(** ** Persistence: [Production::load] *)

(** The YAML node of a saved order: a field is [None] when the key is
    absent, in which case [as<T>(fallback)] yields the fallback. *)
Record Node := {
  node_assigned : option Z;
  node_spent : option Z;
  node_amount : option Z;
  node_infinite : option bool;
  node_sell : option bool;
  node_randomProductionInfo : option (gmap string Z) }.

Definition INT_MAX : Z := 2147483647.

(** The five setters and the tally, before the compatibility rule. *)
Definition loadFields (node : Node) (p : Production) : Production :=
  let p := setAssignedEngineers
             (default (getAssignedEngineers p) (node_assigned node)) p in
  let p := setTimeSpent (default (getTimeSpent p) (node_spent node)) p in
  let p := setAmountTotal (default (getAmountTotal p) (node_amount node)) p in
  let p := setInfiniteAmount
             (default (getInfiniteAmount p) (node_infinite node)) p in
  let p := setSellItems (default (getSellItems p) (node_sell node)) p in
  if negb (bool_decide (getRandomProducedItems (_rules p) = []))
  then setRandomProductionInfo
         (default (_randomProductionInfo p) (node_randomProductionInfo node)) p
  else p.

(** [Production::load]. *)
Definition load (node : Node) (p : Production) : Production :=
  let p := loadFields node p in
  (* backwards compatibility *)
  if getAmountTotal p =? INT_MAX
  then setSellItems true (setInfiniteAmount true (setAmountTotal 999 p))
  else p.

(** ** The states named by the properties *)

Section Ghost.
Context `{Collaborators}.

(** The state once [n] units of a batch are realized: the effects of each
    unit, and between two units the commit of the next one's cost. *)
Fixpoint realizedUnits (n : nat) (st : State) : State :=
  match n with
  | O => st
  | S O => produceUnit st
  | S (S _ as m) => produceUnit (startItem (realizedUnits m st))
  end.

(** The item set on which the roulette stops, none when the roll is beyond
    every running total. *)
Fixpoint selectItemSet (sets : list (Z * list (RuleItem * Z)))
  (runningTotal roll : Z) : list (RuleItem * Z) :=
  match sets with
  | [] => []
  | itemSet :: rest =>
      if roll <=? runningTotal + fst itemSet then snd itemSet
      else selectItemSet rest (runningTotal + fst itemSet) roll
  end.

(** The set drawn for the unit realized from [st]. *)
Definition drawnItemSet (st : State) : list (RuleItem * Z) :=
  let sets := getRandomProducedItems (_rules (prod st)) in
  selectItemSet sets 0 (fst (generate 1 (totalWeightOf sets) (rng st))).

End Ghost.

(** The weight accumulated up to and including the set of index [i]. *)
Definition cumulativeWeight (sets : list (Z * list (RuleItem * Z))) (i : nat)
  : Z :=
  totalWeightOf (take (S i) sets).

(** The quantity of the item type [type] in a list of grants. *)
Definition quantityOf (type : string) (items : list (RuleItem * Z)) : Z :=
  fold_right
    (fun i acc => if String.eqb (item_type (fst i)) type then snd i + acc
                  else acc) 0 items.

(** The entry of the tally for an item type, zero when absent. *)
Definition tallyOf (type : string) (p : Production) : Z :=
  default 0 (_randomProductionInfo p !! type).

(** What of an order the effects of a unit never write: all but the tally. *)
Definition orderFields (p : Production)
  : RuleManufacture * Z * bool * Z * Z * bool :=
  (_rules p, _amount p, _infinite p, _timeSpent p, _engineers p, _sell p).

(** ** A catalogue and collaborators to run the operations on *)

Module Samples.

(** Modelled from the spec: [RuleManufacture::haveEnoughMoneyForOneMoreUnit]
    is not among the sources; section 4.3 has the funds check pass when the
    current funds are at least the per-unit cost. *)
Definition fundsCheck (rules : RuleManufacture) (funds : Z) : bool :=
  getManufactureCost rules <=? funds.

Definition nextId (g : SavedGame) (name : string) : Z * SavedGame :=
  let n := default 1 (ids g !! name) in
  (n, {| getFunds := getFunds g; researchScore := researchScore g;
         ids := <[name := n + 1]> (ids g) |}).

#[local] Instance plain : Collaborators := {|
  ruleHaveEnoughMoney := fundsCheck;
  getSellCostAdjusted := fun _ _ _ => 30;
  getAvailableQuarters := livingQuarters;
  getUsedQuarters := fun b => personnel b + Z.of_nat (length (getTransfers b));
  getCraftCountForProduction := fun b rc =>
    Z.of_nat (length (filter (fun c => craftRules c = rc) (getCrafts b)));
  getId := nextId;
  newCraft := fun rc _ id =>
    {| craftRules := rc; craftId := id; craftStatus := "STR_READY" |};
  initFixedWeapons := fun c => c;
  checkup := fun c => c;
  reuseItem := fun c _ => c;
  generate := fun lo hi seed => (lo + seed `mod` (hi - lo + 1), seed + 1);
  getSoldier := fun t =>
    if String.eqb t "STR_SOLDIER" then Some {| soldier_type := t |} else None;
  selectSoldierNationalityByLocation := fun _ _ _ seed => (0, seed);
  genSoldier := fun g rule nationality seed =>
    let '(id, g) := nextId g "STR_SOLDIER" in
    ({| soldierRules := rule; soldierNationality := nationality;
        soldierId := id; soldierName := EmptyString |}, g, seed);
  loadSoldierTemplate := fun _ s => s;
  getString := fun s => s;
  genName := fun s seed => (setName "STR_NAME" s, seed + 1) |}.

Definition alloys : RuleItem :=
  {| item_type := "STR_ALIEN_ALLOYS"; item_battleType := BT_NONE |}.
Definition elerium : RuleItem :=
  {| item_type := "STR_ELERIUM_115"; item_battleType := BT_NONE |}.
Definition clip : RuleItem :=
  {| item_type := "STR_PLASMA_CLIP"; item_battleType := BT_OTHER |}.
Definition skyranger : RuleCraft := {| craft_type := "STR_SKYRANGER" |}.

(** Clips from two alloys and 100 funds, ten hours each. *)
Definition clipRecipe : RuleManufacture :=
  {| getName := "STR_PLASMA_CLIP"; getManufactureTime := 10;
     getManufactureCost := 100; getRequiredItems := [(alloys, 2)];
     getRequiredCrafts := []; getProducedCraft := None;
     getProducedItems := [(clip, 1)]; getRandomProducedItems := [];
     getSpawnedPersonType := EmptyString;
     getSpawnedPersonName := EmptyString; getPoints := 0 |}.

(** A salvage job: two alloys each time, and a draw between one elerium
    (weight 3) and five clips (weight 1). *)
Definition salvageRecipe : RuleManufacture :=
  {| getName := "STR_SALVAGE"; getManufactureTime := 10;
     getManufactureCost := 0; getRequiredItems := [];
     getRequiredCrafts := []; getProducedCraft := None;
     getProducedItems := [(alloys, 2)];
     getRandomProducedItems := [(3, [(elerium, 1)]); (1, [(clip, 5)])];
     getSpawnedPersonType := EmptyString;
     getSpawnedPersonName := EmptyString; getPoints := 5 |}.

(** Hiring a scientist; the craft that brought them is consumed. *)
Definition hireRecipe : RuleManufacture :=
  {| getName := "STR_HIRE"; getManufactureTime := 10;
     getManufactureCost := 100; getRequiredItems := [(alloys, 2)];
     getRequiredCrafts := [(skyranger, 1)]; getProducedCraft := None;
     getProducedItems := []; getRandomProducedItems := [];
     getSpawnedPersonType := "STR_SCIENTIST";
     getSpawnedPersonName := EmptyString; getPoints := 0 |}.

(** A gift that takes no time to make. *)
Definition giftRecipe : RuleManufacture :=
  {| getName := "STR_GIFT"; getManufactureTime := 0;
     getManufactureCost := 0; getRequiredItems := [];
     getRequiredCrafts := []; getProducedCraft := None;
     getProducedItems := [(clip, 1)]; getRandomProducedItems := [];
     getSpawnedPersonType := EmptyString;
     getSpawnedPersonName := EmptyString; getPoints := 0 |}.

Definition order (rules : RuleManufacture) (amount spent engineers : Z)
  : Production :=
  {| _rules := rules; _amount := amount; _infinite := false;
     _timeSpent := spent; _engineers := engineers; _sell := false;
     _randomProductionInfo := ∅ |}.

Definition ranger : Craft :=
  {| craftRules := skyranger; craftId := 1; craftStatus := "STR_READY" |}.

(** A base with ten alloys, one craft, and its quarters exactly full. *)
Definition home : Base :=
  {| getStorageItems := {[ "STR_ALIEN_ALLOYS" := 10 ]};
     getCrafts := [ranger]; getTransfers := [];
     livingQuarters := 50; personnel := 50 |}.

(** A base over its quarters, with nothing in store and no craft. *)
Definition crowded : Base :=
  {| getStorageItems := ∅; getCrafts := []; getTransfers := [];
     livingQuarters := 50; personnel := 51 |}.

Definition savedGame (funds : Z) : SavedGame :=
  {| getFunds := funds; researchScore := 0; ids := ∅ |}.

Definition world (p : Production) (funds : Z) : State :=
  {| prod := p; base := home; game := savedGame funds; rng := 0 |}.


End Samples.

(** ** The rest of [Production.cpp]: construction and [save] *)

(** The constructor [Production::Production(rules, amount)]; the tally is
    default-constructed, so empty. *)
Definition newProduction (rules : RuleManufacture) (amount : Z) : Production :=
  {| _rules := rules; _amount := amount; _infinite := false;
     _timeSpent := 0; _engineers := 0; _sell := false;
     _randomProductionInfo := ∅ |}.

(** The node written by [save]: the key [item], which the caller of [load]
    reads to find the recipe, beside the keys that [load] reads. *)
Record SavedOrder := {
  node_item : string;
  node_fields : Node }.

(** [Production::save]. *)
Definition save (p : Production) : SavedOrder :=
  {| node_item := getName (getRules p);
     node_fields :=
       {| node_assigned := Some (getAssignedEngineers p);
          node_spent := Some (getTimeSpent p);
          node_amount := Some (getAmountTotal p);
          node_infinite := Some (getInfiniteAmount p);
          node_sell :=
            if getSellItems p then Some (getSellItems p) else None;
          node_randomProductionInfo :=
            if negb (bool_decide (getRandomProducedItems (_rules p) = []))
            then Some (_randomProductionInfo p) else None |} |}.

(** ** Measures used by the further properties *)

(** The crafts of a roster that have the rules [rc]. *)
Definition countCrafts (rc : RuleCraft) (cs : list Craft) : nat :=
  length (filter (fun c => craftRules c = rc) cs).

Section Measures.
Context `{Collaborators}.

(** What the sale of a list of produced items brings at the prices of the
    base [b] and the game [g]. *)
Definition saleValue (items : list (RuleItem * Z)) (b : Base) (g : SavedGame)
  : Z :=
  fold_right (fun i acc => getSellCostAdjusted (fst i) b g * snd i + acc)
             0 items.

(** A craft after [reuseItem] was called on it for each item of a list
    that has the battle type [BT_NONE], in the order of the list. *)
Definition reusedFor (items : list (RuleItem * Z)) (c : Craft) : Craft :=
  fold_left (fun c i => if bool_decide (item_battleType (fst i) = BT_NONE)
                        then reuseItem c (fst i) else c) items c.

End Measures.

(** * Properties *)

(** ** Completed units *)

(** C1: with a positive time per unit the completed-unit count is the
    elapsed labor divided by the time per unit (integer division), and it
    does not decrease when the elapsed labor grows; with a time per unit of
    zero or less it is the target amount. *)
Theorem getAmountProduced_integer_division (p : Production) :
  (0 < getManufactureTime (_rules p) ->
   getAmountProduced p = Z.quot (_timeSpent p) (getManufactureTime (_rules p))
   /\ forall labor, _timeSpent p <= labor ->
        getAmountProduced p <= getAmountProduced (setTimeSpent labor p))
  /\ (getManufactureTime (_rules p) <= 0 -> getAmountProduced p = _amount p).
Proof.
  unfold getAmountProduced; simpl. split.
  - intros Hpos. apply Z.ltb_lt in Hpos as Hb. rewrite Hb. split; [reflexivity|].
    intros labor Hle. now apply Z.quot_le_mono.
  - intros Hle. destruct (Z.ltb_spec 0 (getManufactureTime (_rules p))); [lia|].
    reflexivity.
Qed.

Lemma getAmountProduced_integer_division_witness :
  (getAmountProduced (Samples.order Samples.clipRecipe 5 37 1) = 3
   /\ getAmountProduced (Samples.order Samples.clipRecipe 5 37 1)
      <= getAmountProduced
           (setTimeSpent 52 (Samples.order Samples.clipRecipe 5 37 1)))
  /\ getAmountProduced (Samples.order Samples.giftRecipe 5 37 1) = 5.
Proof.
  split.
  - destruct (getAmountProduced_integer_division
                (Samples.order Samples.clipRecipe 5 37 1)) as [Hquot _].
    destruct Hquot as [Heq Hmono]; [simpl; lia|].
    split; [rewrite Heq; reflexivity | apply Hmono; simpl; lia].
  - apply (getAmountProduced_integer_division
             (Samples.order Samples.giftRecipe 5 37 1)). simpl; lia.
Defined.

(** ** What the effects of a unit leave alone *)

Section Frame.
Context `{Collaborators}.

Lemma fold_left_invariant {A B} (f : State -> A -> State) (g : State -> B)
  (l : list A) :
  (forall st a, g (f st a) = g st) ->
  forall st, g (fold_left f l st) = g st.
Proof.
  intros Hstep. induction l as [|a l IH]; intros st; simpl; [reflexivity|].
  rewrite IH. apply Hstep.
Qed.

Lemma produceItem_fields st i :
  orderFields (prod (produceItem st i)) = orderFields (prod st).
Proof.
  unfold produceItem. destruct (getSellItems (prod st)); [reflexivity|].
  simpl. destruct (negb _); reflexivity.
Qed.

Lemma produceRandomItem_fields st i :
  orderFields (prod (produceRandomItem st i)) = orderFields (prod st).
Proof. reflexivity. Qed.

Lemma randomLoop_fields sets runningTotal roll st :
  orderFields (prod (randomLoop sets runningTotal roll st))
  = orderFields (prod st).
Proof.
  revert runningTotal. induction sets as [|itemSet rest IH]; intros rt; simpl;
    [reflexivity|].
  destruct (roll <=? rt + fst itemSet); [|apply IH].
  apply (fold_left_invariant produceRandomItem (fun s => orderFields (prod s))).
  intros; apply produceRandomItem_fields.
Qed.

Lemma randomManufacture_fields st :
  orderFields (prod (randomManufacture st)) = orderFields (prod st).
Proof.
  unfold randomManufacture. destruct (negb _); [|reflexivity].
  destruct (generate _ _ _) as [roll seed]. now rewrite randomLoop_fields.
Qed.

Lemma spawnPerson_prod st : prod (spawnPerson st) = prod st.
Proof.
  unfold spawnPerson. destruct (negb _); [|reflexivity].
  destruct (String.eqb _ "STR_SCIENTIST"); [reflexivity|].
  destruct (String.eqb _ "STR_ENGINEER"); [reflexivity|].
  destruct (getSoldier _) as [rule|]; [|reflexivity].
  destruct (selectSoldierNationalityByLocation _ _ _ _) as [nationality seed1].
  destruct (genSoldier _ _ _ _) as [[s g] seed2].
  destruct (negb _); [reflexivity|].
  destruct (genName _ _); reflexivity.
Qed.

Lemma scorePoints_prod st : prod (scorePoints st) = prod st.
Proof. unfold scorePoints. destruct (negb _); reflexivity. Qed.

Lemma produceCraft_prod ruleCraft st : prod (produceCraft ruleCraft st) = prod st.
Proof. unfold produceCraft. destruct (getId _ _); reflexivity. Qed.

Lemma produceUnit_fields st :
  orderFields (prod (produceUnit st)) = orderFields (prod st).
Proof.
  unfold produceUnit. rewrite scorePoints_prod, spawnPerson_prod.
  rewrite randomManufacture_fields.
  destruct (getProducedCraft _) as [ruleCraft|].
  - now rewrite produceCraft_prod.
  - apply (fold_left_invariant produceItem (fun s => orderFields (prod s))).
    intros; apply produceItem_fields.
Qed.

Lemma startItem_prod st : prod (startItem st) = prod st.
Proof. reflexivity. Qed.

Lemma realizedUnits_fields n st :
  orderFields (prod (realizedUnits n st)) = orderFields (prod st).
Proof.
  induction n as [|[|m] IH]; [reflexivity | apply produceUnit_fields |].
  change (realizedUnits (S (S m)) st)
    with (produceUnit (startItem (realizedUnits (S m) st))).
  now rewrite produceUnit_fields, startItem_prod.
Qed.

End Frame.


(** ** The batch loop *)

Section Loop.
Context `{Collaborators}.

Lemma batchLoop_eq fuel count produced st :
  batchLoop fuel count produced st =
  if count + 1 <? produced then
    if negb (haveEnoughMoneyForOneMoreUnit (prod (produceUnit st))
                                           (game (produceUnit st)))
    then Some (LoopReturn PROGRESS_NOT_ENOUGH_MONEY, count + 1, produceUnit st)
    else if negb (haveEnoughMaterialsForOneMoreUnit
                    (prod (produceUnit st)) (base (produceUnit st)))
    then Some (LoopReturn PROGRESS_NOT_ENOUGH_MATERIALS, count + 1,
               produceUnit st)
    else
      match fuel with
      | O => None
      | S fuel => batchLoop fuel (count + 1) produced (startItem (produceUnit st))
      end
  else Some (LoopFallThrough, count + 1, produceUnit st).
Proof. destruct fuel; reflexivity. Qed.

(** The bound given by [step] is enough: the loop always comes to an end. *)
Lemma batchLoop_total fuel count produced st :
  produced - count - 1 <= Z.of_nat fuel ->
  is_Some (batchLoop fuel count produced st).
Proof.
  revert count st. induction fuel as [|fuel IH]; intros count st Hfuel.
  all: rewrite batchLoop_eq.
  all: destruct (Z.ltb_spec (count + 1) produced).
  all: try (eexists; reflexivity).
  all: destruct (negb _); try (eexists; reflexivity).
  all: destruct (negb _); try (eexists; reflexivity).
  - lia.
  - apply IH. lia.
Qed.

(** What a result of the loop tells: the count went up, by no more than the
    batch allows; the order kept its fields; a [return] from the middle came
    from the first failing check, money before materials. *)
Lemma batchLoop_result fuel count produced st exit count' st' :
  batchLoop fuel count produced st = Some (exit, count', st') ->
  count < count' /\ count' <= Z.max (count + 1) produced
  /\ orderFields (prod st') = orderFields (prod st)
  /\ match exit with
     | LoopReturn status =>
         count' < produced /\
         ((status = PROGRESS_NOT_ENOUGH_MONEY
           /\ haveEnoughMoneyForOneMoreUnit (prod st') (game st') = false)
          \/ (status = PROGRESS_NOT_ENOUGH_MATERIALS
              /\ haveEnoughMoneyForOneMoreUnit (prod st') (game st') = true
              /\ haveEnoughMaterialsForOneMoreUnit (prod st') (base st')
                 = false))
     | LoopFallThrough => produced <= count'
     end.
Proof.
  revert count st. induction fuel as [|fuel IH]; intros count st;
    rewrite batchLoop_eq;
    (destruct (Z.ltb_spec (count + 1) produced) as [Hlt|Hge];
     [ destruct (haveEnoughMoneyForOneMoreUnit (prod (produceUnit st))
                 (game (produceUnit st))) eqn:Hmoney; cbn [negb];
       [ destruct (haveEnoughMaterialsForOneMoreUnit (prod (produceUnit st))
                     (base (produceUnit st))) eqn:Hmat; cbn [negb]
       | ]
     | ]).
  - discriminate.
  - intros [= <- <- <-]. rewrite produceUnit_fields.
    split; [lia|split; [lia|split; [reflexivity|split; [lia|]]]]. now right.
  - intros [= <- <- <-]. rewrite produceUnit_fields.
    split; [lia|split; [lia|split; [reflexivity|split; [lia|]]]]. now left.
  - intros [= <- <- <-]. rewrite produceUnit_fields.
    split; [lia|split; [lia|split; [reflexivity|lia]]].
  - intros Hrun. apply IH in Hrun as (Hc1 & Hc2 & Hf & Hexit).
    rewrite startItem_prod, produceUnit_fields in Hf.
    split; [lia|split; [lia|split; [assumption|assumption]]].
  - intros [= <- <- <-]. rewrite produceUnit_fields.
    split; [lia|split; [lia|split; [reflexivity|split; [lia|]]]]. now right.
  - intros [= <- <- <-]. rewrite produceUnit_fields.
    split; [lia|split; [lia|split; [reflexivity|split; [lia|]]]]. now left.
  - intros [= <- <- <-]. rewrite produceUnit_fields.
    split; [lia|split; [lia|split; [reflexivity|lia]]].
Qed.
End Loop.

(** ** Blocked batches *)

Section Blocked.
Context `{Collaborators}.

Lemma realizedUnits_one st : realizedUnits 1 st = produceUnit st.
Proof. reflexivity. Qed.

Lemma realizedUnits_next m st :
  realizedUnits (S (S m)) st
  = produceUnit (startItem (realizedUnits (S m) st)).
Proof. reflexivity. Qed.

Lemma realizedUnits_shift m st :
  realizedUnits (S (S m)) st = realizedUnits (S m) (startItem (produceUnit st)).
Proof.
  induction m as [|m IH].
  - now rewrite realizedUnits_next, !realizedUnits_one.
  - rewrite realizedUnits_next, IH. symmetry. apply realizedUnits_next.
Qed.

(** The loop entered at [st] stops at the first unit after which the next
    one cannot be afforded, and hands back the state it has reached. *)
Lemma batchLoop_blocked n : forall fuel count produced st,
  count + Z.of_nat (S n) < produced ->
  produced - count - 1 <= Z.of_nat fuel ->
  (forall k, (1 <= k <= n)%nat ->
     haveEnoughMoneyForOneMoreUnit (prod (realizedUnits k st))
                                   (game (realizedUnits k st)) = true
     /\ haveEnoughMaterialsForOneMoreUnit (prod (realizedUnits k st))
                                          (base (realizedUnits k st)) = true) ->
  haveEnoughMoneyForOneMoreUnit (prod (realizedUnits (S n) st))
                                (game (realizedUnits (S n) st)) = false
  \/ haveEnoughMaterialsForOneMoreUnit (prod (realizedUnits (S n) st))
                                       (base (realizedUnits (S n) st)) = false ->
  batchLoop fuel count produced st =
  Some (LoopReturn
          (if haveEnoughMoneyForOneMoreUnit (prod (realizedUnits (S n) st))
                                            (game (realizedUnits (S n) st))
           then PROGRESS_NOT_ENOUGH_MATERIALS else PROGRESS_NOT_ENOUGH_MONEY),
        count + Z.of_nat (S n), realizedUnits (S n) st).
Proof.
  induction n as [|n IH]; intros fuel count produced st Hlt Hfuel Hpass Hfail;
    rewrite batchLoop_eq.
  - rewrite realizedUnits_one in *.
    destruct (Z.ltb_spec (count + 1) produced) as [_|Hge]; [|lia].
    destruct (haveEnoughMoneyForOneMoreUnit (prod (produceUnit st))
                (game (produceUnit st))); cbn [negb]; [|reflexivity].
    destruct Hfail as [Hfail|Hfail]; [discriminate|].
    rewrite Hfail. reflexivity.
  - destruct (Z.ltb_spec (count + 1) produced) as [_|Hge]; [|lia].
    destruct (Hpass 1%nat) as [Hmoney Hmat]; [lia|].
    rewrite realizedUnits_one in Hmoney, Hmat.
    rewrite Hmoney, Hmat. cbn [negb].
    destruct fuel as [|fuel]; [lia|].
    rewrite (realizedUnits_shift n st) in *.
    rewrite (IH fuel (count + 1) produced (startItem (produceUnit st))).
    + do 3 f_equal. lia.
    + lia.
    + lia.
    + intros k Hk. destruct k as [|k]; [lia|].
      rewrite <- realizedUnits_shift. apply Hpass. lia.
    + assumption.
Qed.

(** C2: when, [n] units into a batch, the next unit cannot be afforded,
    [step] returns the status of the check that failed (money first, then
    materials) and leaves the state as it is after those [n] units: their
    effects stay, the elapsed labor is the one the tick started with plus
    the assigned engineers, and the tally is the one reached. *)
Theorem step_blocked_mid_batch (st : State) (n : nat) :
  let done := getAmountProduced (prod st) in
  let st0 := addLabor st in
  let produced := producedOf (prod st0) done in
  let reached := realizedUnits n st0 in
  done < getAmountProduced (prod st0) ->
  (1 <= n)%nat -> Z.of_nat n < produced ->
  (forall k, (1 <= k < n)%nat ->
     haveEnoughMoneyForOneMoreUnit (prod (realizedUnits k st0))
                                   (game (realizedUnits k st0)) = true
     /\ haveEnoughMaterialsForOneMoreUnit (prod (realizedUnits k st0))
                                          (base (realizedUnits k st0)) = true) ->
  haveEnoughMoneyForOneMoreUnit (prod reached) (game reached) = false
  \/ haveEnoughMaterialsForOneMoreUnit (prod reached) (base reached) = false ->
  step st =
    Some (if haveEnoughMoneyForOneMoreUnit (prod reached) (game reached)
          then PROGRESS_NOT_ENOUGH_MATERIALS else PROGRESS_NOT_ENOUGH_MONEY,
          reached)
  /\ _timeSpent (prod reached) = _timeSpent (prod st) + _engineers (prod st).
Proof.
  intros done st0 produced reached Hnew Hn Hlt Hpass Hfail.
  destruct n as [|n]; [lia|]. split.
  - unfold step. fold done st0.
    destruct (Z.ltb_spec done (getAmountProduced (prod st0))) as [_|?]; [|lia].
    fold produced.
    rewrite (batchLoop_blocked n (Z.to_nat produced) 0 produced st0);
      [reflexivity | lia | lia | | assumption].
    intros k Hk. apply Hpass. lia.
  - pose proof (realizedUnits_fields (S n) st0) as Hf.
    fold reached in Hf. unfold orderFields in Hf.
    injection Hf as _ _ _ Ht _ _. rewrite Ht. reflexivity.
Qed.

End Blocked.

Lemma step_blocked_mid_batch_witness :
  let st := Samples.world (Samples.order Samples.clipRecipe 5 0 30) 150 in
  let reached := @realizedUnits Samples.plain 2 (addLabor st) in
  @step Samples.plain st = Some (PROGRESS_NOT_ENOUGH_MONEY, reached)
  /\ _timeSpent (prod reached) = 30
  /\ getFunds (game reached) = 50
  /\ getItem Samples.clip (getStorageItems (base reached)) = 2.
Proof.
  intros st reached.
  destruct (@step_blocked_mid_batch Samples.plain st 2) as [Hstep Hlabor].
  - vm_compute. reflexivity.
  - lia.
  - vm_compute. reflexivity.
  - intros k Hk. assert (k = 1%nat) as -> by lia. vm_compute. split; reflexivity.
  - left. vm_compute. reflexivity.
  - fold reached in Hstep, Hlabor. split; [|split; [|split]].
    + rewrite Hstep. vm_compute. reflexivity.
    + rewrite Hlabor. vm_compute. reflexivity.
    + vm_compute. reflexivity.
    + vm_compute. reflexivity.
Defined.

(** ** Ticks and their status *)

Section Ticks.
Context `{Collaborators}.

(** C10: a tick in which the added labor completes no further unit changes
    nothing but the elapsed labor, which grows by the assigned engineers
    (the base, the saved game, the generator and the tally are the ones of
    before), and returns [PROGRESS_COMPLETE] for a bounded order whose count
    is at or above the target, [PROGRESS_NOT_COMPLETE] otherwise. *)
Theorem step_without_new_unit (st : State) :
  let labor := _timeSpent (prod st) + _engineers (prod st) in
  ~ (getAmountProduced (prod st)
     < getAmountProduced (setTimeSpent labor (prod st))) ->
  step st =
    Some (if negb (_infinite (prod st))
             && (_amount (prod st)
                 <=? getAmountProduced (setTimeSpent labor (prod st)))
          then PROGRESS_COMPLETE else PROGRESS_NOT_COMPLETE,
          {| prod := setTimeSpent labor (prod st); base := base st;
             game := game st; rng := rng st |})
  /\ _randomProductionInfo (setTimeSpent labor (prod st))
     = _randomProductionInfo (prod st).
Proof.
  intros labor Hsame. split; [|reflexivity].
  unfold step, addLabor, withProd. cbn [prod]. fold labor.
  destruct (Z.ltb_spec (getAmountProduced (prod st))
              (getAmountProduced (setTimeSpent labor (prod st))))
    as [Hlt|Hge]; [contradiction|].
  unfold stepTail, getInfiniteAmount. cbn [prod base game].
  change (_amount (setTimeSpent labor (prod st))) with (_amount (prod st)).
  change (_infinite (setTimeSpent labor (prod st))) with (_infinite (prod st)).
  destruct (_amount (prod st)
            <=? getAmountProduced (setTimeSpent labor (prod st)));
    destruct (_infinite (prod st)); cbn [negb andb]; try reflexivity.
  all: destruct (Z.ltb_spec (getAmountProduced (prod st))
                   (getAmountProduced (setTimeSpent labor (prod st))));
    [lia | reflexivity].
Qed.

(** The state a result of the loop carries is the one after as many units
    as the count went up by. *)
Lemma batchLoop_realized fuel : forall count produced st exit count' st',
  batchLoop fuel count produced st = Some (exit, count', st') ->
  count < count'
  /\ st' = realizedUnits (Z.to_nat (count' - count)) st.
Proof.
  assert (Hone : forall count st,
            count < count + 1
            /\ produceUnit st
               = realizedUnits (Z.to_nat (count + 1 - count)) st).
  { intros count st. split; [lia|].
    replace (Z.to_nat (count + 1 - count)) with 1%nat by lia.
    symmetry. apply realizedUnits_one. }
  induction fuel as [|fuel IH]; intros count produced st exit count' st';
    rewrite batchLoop_eq;
    (destruct (count + 1 <? produced);
     [ destruct (negb (haveEnoughMoneyForOneMoreUnit (prod (produceUnit st))
                         (game (produceUnit st))));
       [ | destruct (negb (haveEnoughMaterialsForOneMoreUnit
                             (prod (produceUnit st)) (base (produceUnit st))))]
     | ]).
  - intros [= <- <- <-]. apply Hone.
  - intros [= <- <- <-]. apply Hone.
  - discriminate.
  - intros [= <- <- <-]. apply Hone.
  - intros [= <- <- <-]. apply Hone.
  - intros [= <- <- <-]. apply Hone.
  - intros Hrun. apply IH in Hrun as [Hup ->]. split; [lia|].
    destruct (Z.to_nat (count' - (count + 1))) as [|m] eqn:Hm; [lia|].
    replace (Z.to_nat (count' - count)) with (S (S m)) by lia.
    symmetry. apply realizedUnits_shift.
  - intros [= <- <- <-]. apply Hone.
Qed.

(** C5, as the code has it: [getAmountProduced] is not capped, but the
    units realized in a tick are.  For a bounded order whose count before
    the tick is below the target, a tick that completes a further unit
    realizes [count] units, at least one and no more than the target leaves
    room for: the loop of [step] comes to an end in the state after exactly
    [count] units (their effects, and the cost of the next one committed
    between two of them), and [step] returns from that state, with the
    status of the failed check or through the part after the loop. *)
Theorem step_batch_within_target (st : State) :
  let done := getAmountProduced (prod st) in
  let st0 := addLabor st in
  let produced := producedOf (prod st0) done in
  getInfiniteAmount (prod st) = false ->
  done < getAmountProduced (prod st0) ->
  done < _amount (prod st) ->
  exists exit count,
    batchLoop (Z.to_nat produced) 0 produced st0
    = Some (exit, count, realizedUnits (Z.to_nat count) st0)
    /\ 1 <= count /\ count <= produced
    /\ done + count <= _amount (prod st)
    /\ step st =
       Some match exit with
            | LoopReturn status =>
                (status, realizedUnits (Z.to_nat count) st0)
            | LoopFallThrough =>
                stepTail done (realizedUnits (Z.to_nat count) st0)
            end.
Proof.
  intros done st0 produced Hbounded Hnew Hroom.
  destruct (batchLoop_total (Z.to_nat produced) 0 produced st0)
    as [[[exit count] st'] Hrun]; [lia|].
  pose proof (batchLoop_realized _ _ _ _ _ _ _ Hrun) as [_ Hstate].
  rewrite Z.sub_0_r in Hstate. subst st'.
  exists exit, count. split; [exact Hrun|].
  assert (Hsize : 1 <= produced <= _amount (prod st) - done).
  { unfold produced, producedOf. change (getInfiniteAmount (prod st0))
      with (getInfiniteAmount (prod st)). rewrite Hbounded. cbn [negb].
    change (_amount (prod st0)) with (_amount (prod st)). lia. }
  pose proof (batchLoop_result _ _ _ _ _ _ _ Hrun) as (Hlo & Hhi & _ & _).
  split; [lia|]. split; [lia|]. split; [lia|].
  unfold step. fold done st0.
  destruct (Z.ltb_spec done (getAmountProduced (prod st0))) as [_|?]; [|lia].
  fold produced. rewrite Hrun. destruct exit; reflexivity.
Qed.





End Ticks.

Lemma step_without_new_unit_witness :
  let st := Samples.world (Samples.order Samples.clipRecipe 3 0 1) 50 in
  @step Samples.plain st =
    Some (PROGRESS_NOT_COMPLETE,
          Samples.world (Samples.order Samples.clipRecipe 3 1 1) 50).
Proof.
  intros st.
  destruct (@step_without_new_unit Samples.plain st) as [Hstep _].
  - vm_compute. discriminate.
  - rewrite Hstep. vm_compute. reflexivity.
Defined.

(** C5, the claim as stated fails: a bounded order for three units, given
    fifty engineers and funds for no second unit, is left by [step] blocked
    after one unit, and [getAmountProduced] reports five units for it. *)
Lemma getAmountProduced_exceeds_target :
  exists st',
    @step Samples.plain
          (Samples.world (Samples.order Samples.clipRecipe 3 0 50) 50)
    = Some (PROGRESS_NOT_ENOUGH_MONEY, st')
    /\ getInfiniteAmount (prod st') = false
    /\ _amount (prod st') = 3
    /\ getAmountProduced (prod st') = 5
    /\ ~ (getAmountProduced (prod st') <= _amount (prod st')).
Proof.
  eexists. split; [vm_compute; reflexivity|].
  vm_compute. repeat split; congruence.
Qed.

Lemma step_batch_within_target_witness :
  let st := Samples.world (Samples.order Samples.clipRecipe 3 0 50) 50 in
  let st0 := addLabor st in
  exists exit count,
    @batchLoop Samples.plain 3 0 3 st0
    = Some (exit, count, @realizedUnits Samples.plain (Z.to_nat count) st0)
    /\ 1 <= count /\ count <= 3 /\ 0 + count <= 3
    /\ @step Samples.plain st =
       Some match exit with
            | LoopReturn status =>
                (status, @realizedUnits Samples.plain (Z.to_nat count) st0)
            | LoopFallThrough =>
                @stepTail Samples.plain 0
                  (@realizedUnits Samples.plain (Z.to_nat count) st0)
            end.
Proof.
  intros st st0. apply (@step_batch_within_target Samples.plain st).
  - vm_compute. reflexivity.
  - vm_compute. reflexivity.
  - vm_compute. reflexivity.
Defined.


(** ** Living space *)

(** C4, the claim as stated fails: with the quarters exactly full (used
    equal to available) the check passes for a recipe that spawns a
    person. *)
Lemma living_space_passes_when_full :
  let p := Samples.order Samples.hireRecipe 3 10 1 in
  getSpawnedPersonType (_rules p) <> EmptyString
  /\ @getUsedQuarters Samples.plain Samples.home
     >= @getAvailableQuarters Samples.plain Samples.home
  /\ @haveEnoughLivingSpaceForOneMoreUnit Samples.plain p Samples.home = true.
Proof. vm_compute. repeat split; congruence. Qed.

(** C4, as the code has it: for a recipe that spawns a person the check
    fails exactly when the used quarters are strictly more than the
    available ones; for a recipe that spawns nobody it passes. *)
Theorem living_space_check `{Collaborators} (p : Production) (b : Base) :
  (getSpawnedPersonType (_rules p) <> EmptyString ->
   (haveEnoughLivingSpaceForOneMoreUnit p b = false
    <-> getAvailableQuarters b < getUsedQuarters b))
  /\ (getSpawnedPersonType (_rules p) = EmptyString ->
      haveEnoughLivingSpaceForOneMoreUnit p b = true).
Proof.
  unfold haveEnoughLivingSpaceForOneMoreUnit.
  destruct (String.eqb_spec (getSpawnedPersonType (_rules p)) EmptyString)
    as [Heq|Hne]; cbn [negb]; split; try congruence; try reflexivity.
  intros _.
  destruct (Z.ltb_spec (getAvailableQuarters b) (getUsedQuarters b));
    split; (congruence || lia).
Qed.

Lemma living_space_check_witness :
  let p := Samples.order Samples.hireRecipe 3 10 1 in
  @haveEnoughLivingSpaceForOneMoreUnit Samples.plain p Samples.crowded = false
  /\ @haveEnoughLivingSpaceForOneMoreUnit Samples.plain
       (Samples.order Samples.clipRecipe 3 10 1) Samples.crowded = true.
Proof.
  intros p. split.
  - apply (@living_space_check Samples.plain p Samples.crowded).
    + simpl. congruence.
    + vm_compute. reflexivity.
  - apply (@living_space_check Samples.plain
             (Samples.order Samples.clipRecipe 3 10 1) Samples.crowded).
    reflexivity.
Defined.

(** ** Loading a saved order *)

(** C9: when the saved target amount is the maximum integer, [load] leaves
    the target at 999 with the unbounded and the sell flags set; when the
    target amount as loaded (the saved one, or the one in memory when the
    record has none) is any other value, the target amount and the two
    flags are the saved ones, or the ones in memory where the record has
    none. *)
Theorem load_sentinel (node : Node) (p : Production) :
  (node_amount node = Some INT_MAX ->
   _amount (load node p) = 999
   /\ _infinite (load node p) = true /\ _sell (load node p) = true)
  /\ (default (_amount p) (node_amount node) <> INT_MAX ->
      _amount (load node p) = default (_amount p) (node_amount node)
      /\ _infinite (load node p) = default (_infinite p) (node_infinite node)
      /\ _sell (load node p) = default (_sell p) (node_sell node)).
Proof.
  assert (Hamount : getAmountTotal (loadFields node p)
                    = default (_amount p) (node_amount node)).
  { unfold loadFields. destruct (negb _); reflexivity. }
  unfold load. rewrite Hamount. split.
  - intros ->. cbn [default]. rewrite Z.eqb_refl. repeat split; reflexivity.
  - intros Hother.
    destruct (Z.eqb_spec (default (_amount p) (node_amount node)) INT_MAX);
      [contradiction|].
    unfold loadFields. destruct (negb _); repeat split; reflexivity.
Qed.

Lemma load_sentinel_witness :
  let p := Samples.order Samples.clipRecipe 0 0 0 in
  let legacy :=
    {| node_assigned := Some 10; node_spent := Some 40;
       node_amount := Some INT_MAX; node_infinite := None;
       node_sell := None; node_randomProductionInfo := None |} in
  let plain :=
    {| node_assigned := Some 10; node_spent := Some 40;
       node_amount := Some 7; node_infinite := None;
       node_sell := Some true; node_randomProductionInfo := None |} in
  (_amount (load legacy p) = 999
   /\ _infinite (load legacy p) = true /\ _sell (load legacy p) = true)
  /\ (_amount (load plain p) = 7
      /\ _infinite (load plain p) = false /\ _sell (load plain p) = true).
Proof.
  intros p legacy plain. split.
  - apply (load_sentinel legacy p). reflexivity.
  - apply (load_sentinel plain p). vm_compute. discriminate.
Defined.

(** ** The weighted draw *)

Section Roulette.
Context `{Collaborators}.

Lemma totalWeightOf_from (sets : list (Z * list (RuleItem * Z))) (start : Z) :
  fold_left (fun totalWeight itemSet => totalWeight + fst itemSet) sets start
  = start + totalWeightOf sets.
Proof.
  unfold totalWeightOf. revert start.
  induction sets as [|itemSet rest IH]; intros start; simpl; [lia|].
  rewrite (IH (start + fst itemSet)), (IH (0 + fst itemSet)). lia.
Qed.

Lemma totalWeightOf_cons itemSet (rest : list (Z * list (RuleItem * Z))) :
  totalWeightOf (itemSet :: rest) = fst itemSet + totalWeightOf rest.
Proof.
  unfold totalWeightOf at 1. simpl. rewrite totalWeightOf_from. lia.
Qed.

Lemma cumulativeWeight_first itemSet (rest : list (Z * list (RuleItem * Z))) :
  cumulativeWeight (itemSet :: rest) 0 = fst itemSet.
Proof.
  unfold cumulativeWeight. cbn [take]. rewrite totalWeightOf_cons.
  unfold totalWeightOf. simpl. lia.
Qed.

Lemma cumulativeWeight_later itemSet (rest : list (Z * list (RuleItem * Z)))
  (i : nat) :
  cumulativeWeight (itemSet :: rest) (S i)
  = fst itemSet + cumulativeWeight rest i.
Proof.
  unfold cumulativeWeight. cbn [take]. apply totalWeightOf_cons.
Qed.

(** The loop stops at the first index whose running total reaches the roll
    and grants the set found there. *)
Lemma randomLoop_first sets : forall runningTotal roll st,
  runningTotal < roll ->
  roll <= runningTotal + totalWeightOf sets ->
  exists i weight items,
    sets !! i = Some (weight, items)
    /\ roll <= runningTotal + cumulativeWeight sets i
    /\ (forall j, (j < i)%nat -> runningTotal + cumulativeWeight sets j < roll)
    /\ randomLoop sets runningTotal roll st
       = fold_left produceRandomItem items st.
Proof.
  induction sets as [|[weight items] rest IH];
    intros runningTotal roll st Hbelow Hroll.
  - unfold totalWeightOf in Hroll. simpl in Hroll. lia.
  - rewrite totalWeightOf_cons in Hroll. cbn [fst] in Hroll.
    cbn [randomLoop fst snd].
    destruct (Z.leb_spec roll (runningTotal + weight)) as [Hhit|Hmiss].
    + exists 0%nat, weight, items. split; [reflexivity|].
      rewrite cumulativeWeight_first. cbn [fst].
      split; [lia|]. split; [intros j Hj; lia | reflexivity].
    + destruct (IH (runningTotal + weight) roll st) as
        (i & w & its & Hat & Hreach & Hbefore & Hrun); [lia|lia|].
      exists (S i), w, its. split; [exact Hat|].
      rewrite cumulativeWeight_later. cbn [fst].
      split; [lia|]. split; [|exact Hrun].
      intros [|j] Hj.
      * rewrite cumulativeWeight_first. cbn [fst]. lia.
      * rewrite cumulativeWeight_later. cbn [fst].
        specialize (Hbefore j). lia.
Qed.

Lemma produceRandomItem_storage st i :
  getStorageItems (base (produceRandomItem st i))
  = addItem (fst i) (snd i) (getStorageItems (base st)).
Proof.
  unfold produceRandomItem. cbn [base withProd withBase].
  destruct (bool_decide _); reflexivity.
Qed.

Lemma produceRandomItem_all_storage items : forall st,
  getStorageItems (base (fold_left produceRandomItem items st))
  = fold_left (fun s i => addItem (fst i) (snd i) s) items
              (getStorageItems (base st)).
Proof.
  induction items as [|i items IH]; intros st; simpl; [reflexivity|].
  now rewrite IH, produceRandomItem_storage.
Qed.

(** C6: for a roll between 1 and the total weight, the random manufacture
    stops at the set of smallest index whose cumulative weight is at least
    the roll, and what it does is grant the items of that set and of no
    other: the state is the one after its grants, the stock the one with
    its quantities added. *)
Theorem weighted_draw_first_reaching (st : State) :
  let sets := getRandomProducedItems (_rules (prod st)) in
  let draw := generate 1 (totalWeightOf sets) (rng st) in
  1 <= fst draw <= totalWeightOf sets ->
  exists i weight items,
    sets !! i = Some (weight, items)
    /\ fst draw <= cumulativeWeight sets i
    /\ (forall j, (j < i)%nat -> cumulativeWeight sets j < fst draw)
    /\ randomManufacture st
       = fold_left produceRandomItem items (withRng (snd draw) st)
    /\ getStorageItems (base (randomManufacture st))
       = fold_left (fun s i => addItem (fst i) (snd i) s) items
                   (getStorageItems (base st)).
Proof.
  intros sets draw Hroll.
  destruct (randomLoop_first sets 0 (fst draw) (withRng (snd draw) st))
    as (i & weight & items & Hat & Hreach & Hbefore & Hrun); [lia|lia|].
  assert (Hdone : randomManufacture st
                  = fold_left produceRandomItem items (withRng (snd draw) st)).
  { unfold randomManufacture. fold sets.
    destruct sets as [|itemSet rest] eqn:Hsets; [discriminate Hat|].
    rewrite bool_decide_eq_false_2 by discriminate. cbn [negb].
    fold draw. destruct draw as [roll seed]. exact Hrun. }
  exists i, weight, items. split; [exact Hat|].
  split; [lia|]. split; [intros j Hj; specialize (Hbefore j Hj); lia|].
  split; [exact Hdone|].
  rewrite Hdone, produceRandomItem_all_storage. reflexivity.
Qed.

End Roulette.

Lemma weighted_draw_first_reaching_witness :
  let st :=
    withRng 3 (Samples.world (Samples.order Samples.salvageRecipe 3 9 1) 50) in
  exists i weight items,
    getRandomProducedItems Samples.salvageRecipe !! i = Some (weight, items)
    /\ 4 <= cumulativeWeight (getRandomProducedItems Samples.salvageRecipe) i
    /\ (forall j, (j < i)%nat ->
        cumulativeWeight (getRandomProducedItems Samples.salvageRecipe) j < 4)
    /\ @randomManufacture Samples.plain st
       = fold_left (@produceRandomItem Samples.plain) items (withRng 4 st)
    /\ getStorageItems (base (@randomManufacture Samples.plain st))
       = fold_left (fun s i => addItem (fst i) (snd i) s) items
                   (getStorageItems (base st)).
Proof.
  intros st.
  apply (@weighted_draw_first_reaching Samples.plain st).
  vm_compute. split; discriminate.
Defined.


(** ** Commit and refund *)

Section Refund.

Lemma removeItem_lookup i qty (s : gmap string Z) (k : string) :
  removeItem i qty s !! k =
  if decide (k = item_type i)
  then match s !! k with
       | Some n => if qty <? n then Some (n - qty) else None
       | None => None
       end
  else s !! k.
Proof.
  unfold removeItem. destruct (decide (k = item_type i)) as [->|Hne].
  - destruct (s !! item_type i) as [n|] eqn:Hn; [|now rewrite Hn].
    destruct (qty <? n).
    + apply lookup_insert_eq.
    + apply lookup_delete_eq.
  - destruct (s !! item_type i) as [n|]; [|reflexivity].
    destruct (qty <? n).
    + now apply lookup_insert_ne.
    + now apply lookup_delete_ne.
Qed.

Lemma addItem_lookup i qty (s : gmap string Z) (k : string) :
  addItem i qty s !! k =
  if decide (k = item_type i) then Some (default 0 (s !! k) + qty)
  else s !! k.
Proof.
  unfold addItem. destruct (decide (k = item_type i)) as [->|Hne].
  - apply lookup_insert_eq.
  - now apply lookup_insert_ne.
Qed.

(** A pass over the entries of a [std::map] (one entry per item) with an
    operation that touches the stock of its own item only: the stock of an
    item is what the operation of its entry makes of it. *)
Lemma fold_entries_lookup
  (op : RuleItem -> Z -> gmap string Z -> gmap string Z)
  (at_key : Z -> option Z -> option Z) :
  (forall i qty s k,
     op i qty s !! k = if decide (k = item_type i) then at_key qty (s !! k)
                       else s !! k) ->
  forall (entries : list (RuleItem * Z)) (s : gmap string Z) (k : string),
    NoDup (map (fun e => item_type (fst e)) entries) ->
    fold_left (fun s e => op (fst e) (snd e) s) entries s !! k =
    match list_find (fun e => item_type (fst e) = k) entries with
    | Some (_, e) => at_key (snd e) (s !! k)
    | None => s !! k
    end.
Proof.
  intros Hop entries. induction entries as [|e entries IH]; intros s k Hnodup;
    [reflexivity|].
  cbn [map] in Hnodup. apply NoDup_cons in Hnodup as [Hfresh Hnodup].
  cbn [fold_left list_find]. rewrite IH by assumption. rewrite Hop.
  destruct (decide (item_type (fst e) = k)) as [<-|Hne].
  - rewrite decide_True by reflexivity.
    destruct (list_find _ entries) as [[j e']|] eqn:Hfind; [|reflexivity].
    exfalso. apply list_find_Some in Hfind as (Hat & Hkey & _).
    apply Hfresh. rewrite <- Hkey.
    apply (list_elem_of_fmap_2 (fun e => item_type (fst e))).
    eapply list_elem_of_lookup_2. exact Hat.
  - rewrite decide_False by congruence.
    destruct (list_find _ entries) as [[j e']|]; reflexivity.
Qed.

(** C7: with every required item in stock in at least its required
    quantity (the required items being the entries of a [std::map], one per
    item), [refundItem] after [startItem] leaves the funds and the whole
    stock, so the quantity of every item, as they were before [startItem];
    the roster stays the one [startItem] left, without the crafts it
    consumed. *)
Theorem startItem_refundItem (st : State) :
  let required := getRequiredItems (_rules (prod st)) in
  let st' := refundItem (startItem st) in
  NoDup (map (fun e => item_type (fst e)) required) ->
  (forall i qty, (i, qty) ∈ required ->
     exists n, getStorageItems (base st) !! item_type i = Some n /\ qty <= n) ->
  getFunds (game st') = getFunds (game st)
  /\ getStorageItems (base st') = getStorageItems (base st)
  /\ (forall i, getItem i (getStorageItems (base st'))
               = getItem i (getStorageItems (base st)))
  /\ getCrafts (base st') = getCrafts (base (startItem st))
  /\ getCrafts (base st')
     = fold_left (fun cs e => removeFirstCraft (fst e) cs)
                 (getRequiredCrafts (_rules (prod st))) (getCrafts (base st)).
Proof.
  intros required st' Hnodup Hstock.
  assert (Hstorage : getStorageItems (base st') = getStorageItems (base st)).
  { subst st'. unfold refundItem, startItem.
    cbn [prod base game withGame withBase getStorageItems setStorageItems
         setCrafts].
    fold required. apply map_eq. intros k.
    rewrite (fold_entries_lookup addItem
               (fun qty o => Some (default 0 o + qty)) addItem_lookup)
      by assumption.
    rewrite (fold_entries_lookup removeItem
               (fun qty o => match o with
                             | Some n => if qty <? n then Some (n - qty)
                                         else None
                             | None => None
                             end) removeItem_lookup) by assumption.
    destruct (list_find _ required) as [[j [i qty]]|] eqn:Hfind;
      [|reflexivity].
    apply list_find_Some in Hfind as (Hat & Hkey & _). cbn [fst snd] in *.
    destruct (Hstock i qty) as (n & Hn & Hle);
      [eapply list_elem_of_lookup_2; exact Hat|].
    rewrite <- Hkey, Hn.
    destruct (Z.ltb_spec qty n); cbn [default id]; f_equal; lia. }
  split; [|split; [exact Hstorage|split; [|split; reflexivity]]].
  - subst st'. unfold refundItem, startItem.
    cbn [prod base game withGame withBase getFunds setFunds]. lia.
  - intros i. unfold getItem. now rewrite Hstorage.
Qed.

End Refund.

Lemma startItem_refundItem_witness :
  let st := Samples.world (Samples.order Samples.hireRecipe 3 10 1) 500 in
  let st' := refundItem (startItem st) in
  getFunds (game st') = 500
  /\ getItem Samples.alloys (getStorageItems (base st')) = 10
  /\ getCrafts (base st) = [Samples.ranger]
  /\ getCrafts (base st') = [].
Proof.
  intros st st'.
  destruct (startItem_refundItem st)
    as (Hfunds & _ & Hitems & _ & Hcrafts).
  - vm_compute. apply NoDup_cons. split; [apply not_elem_of_nil|apply NoDup_nil_2].
  - intros i qty Hin. apply list_elem_of_singleton in Hin as [= -> ->].
    exists 10. split; [vm_compute; reflexivity | lia].
  - fold st' in Hfunds, Hitems, Hcrafts.
    split; [rewrite Hfunds; reflexivity|].
    split; [rewrite Hitems; vm_compute; reflexivity|].
    split; [reflexivity|].
    rewrite Hcrafts. vm_compute. reflexivity.
Defined.

(** ** The tally of random production *)

Section Tally.
Context `{Collaborators}.

Lemma tallyOf_tallyAdd type item qty p :
  tallyOf type
    (setRandomProductionInfo (tallyAdd item qty (_randomProductionInfo p)) p)
  = tallyOf type p + (if String.eqb item type then qty else 0).
Proof.
  unfold tallyOf, tallyAdd. cbn [_randomProductionInfo setRandomProductionInfo].
  destruct (String.eqb_spec item type) as [->|Hne].
  - rewrite lookup_insert_eq. reflexivity.
  - rewrite lookup_insert_ne by assumption. lia.
Qed.

Lemma quantityOf_cons type (i : RuleItem * Z) items :
  quantityOf type (i :: items)
  = (if String.eqb (item_type (fst i)) type then snd i else 0)
    + quantityOf type items.
Proof.
  unfold quantityOf. cbn [fold_right].
  destruct (String.eqb _ _); lia.
Qed.

Lemma produceRandomItem_tally type st i :
  tallyOf type (prod (produceRandomItem st i))
  = tallyOf type (prod st)
    + (if String.eqb (item_type (fst i)) type then snd i else 0).
Proof. apply tallyOf_tallyAdd. Qed.

Lemma produceRandomItem_all_tally type items : forall st,
  tallyOf type (prod (fold_left produceRandomItem items st))
  = tallyOf type (prod st) + quantityOf type items.
Proof.
  induction items as [|i items IH]; intros st.
  - unfold quantityOf. simpl. lia.
  - cbn [fold_left]. rewrite IH, produceRandomItem_tally, quantityOf_cons. lia.
Qed.

Lemma randomLoop_tally type sets : forall runningTotal roll st,
  tallyOf type (prod (randomLoop sets runningTotal roll st))
  = tallyOf type (prod st)
    + quantityOf type (selectItemSet sets runningTotal roll).
Proof.
  induction sets as [|itemSet rest IH]; intros runningTotal roll st.
  - unfold quantityOf. simpl. lia.
  - cbn [randomLoop selectItemSet].
    destruct (roll <=? runningTotal + fst itemSet); [|apply IH].
    apply produceRandomItem_all_tally.
Qed.

Lemma randomManufacture_tally type st :
  tallyOf type (prod (randomManufacture st))
  = tallyOf type (prod st) + quantityOf type (drawnItemSet st).
Proof.
  unfold randomManufacture, drawnItemSet.
  destruct (getRandomProducedItems (_rules (prod st))) as [|s sets] eqn:Hsets.
  - unfold quantityOf. simpl. lia.
  - rewrite bool_decide_eq_false_2 by discriminate. cbn [negb].
    destruct (generate _ _ _) as [roll seed]. cbn [fst].
    now rewrite randomLoop_tally.
Qed.

(** What the fixed outputs add to the tally: nothing when they are sold or
    when the recipe has no random outputs. *)
Lemma produceItem_tally type st i :
  tallyOf type (prod (produceItem st i))
  = tallyOf type (prod st)
    + (if getSellItems (prod st) then 0
       else if bool_decide (getRandomProducedItems (_rules (prod st)) = [])
            then 0
            else if String.eqb (item_type (fst i)) type then snd i else 0).
Proof.
  unfold produceItem. destruct (getSellItems (prod st)); [simpl; lia|].
  cbn [prod withProd withBase].
  destruct (bool_decide _); cbn [negb]; [lia|]. apply tallyOf_tallyAdd.
Qed.

Lemma produceItem_all_tally type items : forall st,
  tallyOf type (prod (fold_left produceItem items st))
  = tallyOf type (prod st)
    + (if getSellItems (prod st) then 0
       else if bool_decide (getRandomProducedItems (_rules (prod st)) = [])
            then 0 else quantityOf type items).
Proof.
  induction items as [|i items IH]; intros st.
  - unfold quantityOf. simpl. repeat destruct (_ : bool); lia.
  - cbn [fold_left]. rewrite IH, produceItem_tally, quantityOf_cons.
    pose proof (produceItem_fields st i) as Hf. unfold orderFields in Hf.
    injection Hf as -> _ _ _ _ Hsell. unfold getSellItems. rewrite Hsell.
    destruct (_sell (prod st)); [lia|]. destruct (bool_decide _); lia.
Qed.

Lemma produceItem_rng st i : rng (produceItem st i) = rng st.
Proof. unfold produceItem. destruct (getSellItems _); reflexivity. Qed.

Lemma produceCraft_rng ruleCraft st : rng (produceCraft ruleCraft st) = rng st.
Proof. unfold produceCraft. destruct (getId _ _); reflexivity. Qed.

(** C8, as the code has it: for a recipe with random outputs, a realized
    unit adds to each entry of the tally the quantity of that item in the
    set drawn by the random manufacture and, when the recipe produces no
    craft and the output is not sold, the quantity of that item among the
    fixed produced items as well; committing the cost of a unit and adding
    labor leave the tally alone. *)
Theorem tally_of_a_unit (st : State) (type : string) :
  getRandomProducedItems (_rules (prod st)) <> [] ->
  tallyOf type (prod (produceUnit st))
  = tallyOf type (prod st)
    + match getProducedCraft (_rules (prod st)) with
      | Some _ => 0
      | None => if getSellItems (prod st) then 0
                else quantityOf type (getProducedItems (_rules (prod st)))
      end
    + quantityOf type (drawnItemSet st)
  /\ tallyOf type (prod (startItem st)) = tallyOf type (prod st)
  /\ tallyOf type (prod (addLabor st)) = tallyOf type (prod st).
Proof.
  intros Hrandom. split; [|split; reflexivity].
  unfold produceUnit. rewrite scorePoints_prod, spawnPerson_prod.
  rewrite randomManufacture_tally.
  destruct (getProducedCraft (_rules (prod st))) as [ruleCraft|].
  - unfold drawnItemSet.
    rewrite produceCraft_rng, produceCraft_prod. lia.
  - rewrite produceItem_all_tally.
    rewrite bool_decide_eq_false_2 by assumption.
    assert (Hdrawn : drawnItemSet
                       (fold_left produceItem
                                  (getProducedItems (_rules (prod st))) st)
                     = drawnItemSet st).
    { unfold drawnItemSet.
      rewrite (fold_left_invariant produceItem rng _ produceItem_rng).
      pose proof (fold_left_invariant produceItem
                    (fun s => orderFields (prod s))
                    (getProducedItems (_rules (prod st)))
                    produceItem_fields st) as Hf.
      cbv beta in Hf. unfold orderFields in Hf.
      injection Hf as -> _ _ _ _ _. reflexivity. }
    rewrite Hdrawn. reflexivity.
Qed.

End Tally.

(** C8, the claim as stated fails: the salvage job stocks two alloys as its
    fixed output and draws one elerium; after the tick the tally holds two
    alloys, none of which came from the draw. *)
Lemma tally_counts_fixed_outputs :
  let st := Samples.world (Samples.order Samples.salvageRecipe 3 9 1) 50 in
  exists st',
    @step Samples.plain st = Some (PROGRESS_NOT_COMPLETE, st')
    /\ tallyOf "STR_ALIEN_ALLOYS" (prod st) = 0
    /\ @drawnItemSet Samples.plain (addLabor st) = [(Samples.elerium, 1)]
    /\ tallyOf "STR_ALIEN_ALLOYS" (prod st') = 2
    /\ tallyOf "STR_ALIEN_ALLOYS" (prod st')
       <> tallyOf "STR_ALIEN_ALLOYS" (prod st)
          + quantityOf "STR_ALIEN_ALLOYS"
                       (@drawnItemSet Samples.plain (addLabor st)).
Proof.
  intros st. eexists. split; [vm_compute; reflexivity|].
  vm_compute. repeat split; congruence.
Qed.

Lemma tally_of_a_unit_witness :
  let st := Samples.world (Samples.order Samples.salvageRecipe 3 10 1) 50 in
  tallyOf "STR_ALIEN_ALLOYS" (prod (@produceUnit Samples.plain st)) = 2
  /\ tallyOf "STR_ELERIUM_115" (prod (@produceUnit Samples.plain st)) = 1.
Proof.
  intros st. split.
  - destruct (@tally_of_a_unit Samples.plain st "STR_ALIEN_ALLOYS")
      as [Hunit _]; [discriminate|].
    rewrite Hunit. vm_compute. reflexivity.
  - destruct (@tally_of_a_unit Samples.plain st "STR_ELERIUM_115")
      as [Hunit _]; [discriminate|].
    rewrite Hunit. vm_compute. reflexivity.
Defined.

(** * Further properties of [Production.cpp] *)

(** ** Saving and loading *)

(** X1: what [save] writes, [load] reads back: loading the saved node into
    an order just constructed for the same recipe gives the saved order
    again, provided its target is not the maximum integer and, for a recipe
    without random outputs (whose tally is not written), its tally is
    empty. *)
Theorem save_load_round_trip (p : Production) (amount : Z) :
  _amount p <> INT_MAX ->
  (getRandomProducedItems (_rules p) = [] -> _randomProductionInfo p = ∅) ->
  load (node_fields (save p)) (newProduction (_rules p) amount) = p.
Proof.
  intros Hamount Htally. destruct p as [rules amt inf spent eng sell tally].
  cbn [_amount _rules _randomProductionInfo] in *.
  unfold load, loadFields, save, newProduction. simpl.
  assert (Hsell : default false (if sell then Some sell else None) = sell)
    by (destruct sell; reflexivity).
  rewrite Hsell.
  destruct (bool_decide (getRandomProducedItems rules = [])) eqn:Hrandom;
    simpl;
    (destruct (Z.eqb_spec amt INT_MAX); [contradiction|]);
    [|reflexivity].
  apply bool_decide_eq_true in Hrandom. now rewrite (Htally Hrandom).
Qed.

Lemma save_load_round_trip_witness :
  let p :=
    setSellItems true
      (setRandomProductionInfo {[ "STR_ELERIUM_115" := 4 ]}
         (Samples.order Samples.salvageRecipe 7 35 12)) in
  load (node_fields (save p)) (newProduction Samples.salvageRecipe 0) = p.
Proof.
  intros p. apply (save_load_round_trip p 0).
  - vm_compute. discriminate.
  - intros Hnone. vm_compute in Hnone. discriminate Hnone.
Defined.

(** X2: the maximum integer never survives [load]: whatever the node and
    the order loaded into, the target amount afterwards is another value,
    and so is the one a later [save] writes. *)
Theorem load_never_leaves_sentinel (node : Node) (p : Production) :
  _amount (load node p) <> INT_MAX
  /\ node_amount (node_fields (save (load node p))) <> Some INT_MAX.
Proof.
  assert (Hload : _amount (load node p) <> INT_MAX).
  { unfold load.
    destruct (Z.eqb_spec (getAmountTotal (loadFields node p)) INT_MAX)
      as [Heq|Hne]; [vm_compute; discriminate | exact Hne]. }
  split; [exact Hload|].
  unfold save, getAmountTotal. cbn [node_fields node_amount]. congruence.
Qed.

(** ** More on ticks *)

Section MoreTicks.
Context `{Collaborators}.

Lemma getAmountProduced_fields p q :
  orderFields p = orderFields q -> getAmountProduced p = getAmountProduced q.
Proof.
  unfold orderFields, getAmountProduced. intros Heq.
  injection Heq as -> -> _ -> _ _. reflexivity.
Qed.

Lemma orderFields_inv p q :
  orderFields p = orderFields q ->
  _rules p = _rules q /\ _amount p = _amount q /\ _infinite p = _infinite q
  /\ _timeSpent p = _timeSpent q /\ _engineers p = _engineers q
  /\ _sell p = _sell q.
Proof.
  unfold orderFields. intros Heq. injection Heq as -> -> -> -> -> ->.
  repeat split; reflexivity.
Qed.

Lemma stepTail_prod done st : prod (snd (stepTail done st)) = prod st.
Proof.
  unfold stepTail. destruct (_ && _); [reflexivity|].
  destruct (done <? _); [|reflexivity].
  destruct (negb _); [reflexivity|]. destruct (negb _); [reflexivity|].
  destruct (negb _); reflexivity.
Qed.

(** The order that any result of [step] holds: the fields of the order as
    they are once the labor of the tick is added. *)
Lemma step_fields st status st' :
  step st = Some (status, st') ->
  orderFields (prod st') = orderFields (prod (addLabor st)).
Proof.
  unfold step.
  destruct (getAmountProduced (prod st)
            <? getAmountProduced (prod (addLabor st))).
  - destruct (batchLoop _ _ _ _) as [[[[blocked|] count] st1]|] eqn:Hrun;
      [| |discriminate].
    + intros [= <- <-].
      now apply batchLoop_result in Hrun as (_ & _ & Hf & _).
    + intros [= Htail].
      apply batchLoop_result in Hrun as (_ & _ & Hf & _).
      rewrite <- Hf. f_equal.
      rewrite <- (stepTail_prod (getAmountProduced (prod st)) st1).
      now rewrite Htail.
  - intros [= Htail]. f_equal.
    rewrite <- (stepTail_prod (getAmountProduced (prod st)) (addLabor st)).
    now rewrite Htail.
Qed.

(** X3: whatever status [step] returns, blocked or not, it has added the
    assigned engineers to the elapsed labor exactly once and has left the
    recipe, the target, the two flags and the engineers of the order as
    they were. *)
Theorem step_keeps_order (st : State) status st' :
  step st = Some (status, st') ->
  _timeSpent (prod st') = _timeSpent (prod st) + _engineers (prod st)
  /\ _rules (prod st') = _rules (prod st)
  /\ _amount (prod st') = _amount (prod st)
  /\ _infinite (prod st') = _infinite (prod st)
  /\ _engineers (prod st') = _engineers (prod st)
  /\ _sell (prod st') = _sell (prod st).
Proof.
  intros Hstep. apply step_fields in Hstep. unfold orderFields in Hstep.
  injection Hstep as -> -> -> -> -> ->. repeat split; reflexivity.
Qed.

(** X4: the status tells where the order stands: [PROGRESS_COMPLETE] is
    returned only for a bounded order whose count, at the labor reached,
    is at or above the target, and [PROGRESS_NOT_COMPLETE] only for an
    unbounded order or a count below the target. *)
Theorem step_status_sound (st : State) status st' :
  step st = Some (status, st') ->
  (status = PROGRESS_COMPLETE ->
   _infinite (prod st) = false
   /\ _amount (prod st) <= getAmountProduced (prod (addLabor st)))
  /\ (status = PROGRESS_NOT_COMPLETE ->
      _infinite (prod st) = true
      \/ getAmountProduced (prod (addLabor st)) < _amount (prod st)).
Proof.
  assert (Htail : forall done st1,
    orderFields (prod st1) = orderFields (prod (addLabor st)) ->
    stepTail done st1 = (status, st') ->
    (status = PROGRESS_COMPLETE ->
     _infinite (prod st) = false
     /\ _amount (prod st) <= getAmountProduced (prod (addLabor st)))
    /\ (status = PROGRESS_NOT_COMPLETE ->
        _infinite (prod st) = true
        \/ getAmountProduced (prod (addLabor st)) < _amount (prod st))).
  { intros done st1 Hf. rewrite <- (getAmountProduced_fields _ _ Hf).
    assert (Ha : _amount (prod st1) = _amount (prod st)).
    { unfold orderFields in Hf. now injection Hf as _ -> _ _ _ _. }
    assert (Hi : _infinite (prod st1) = _infinite (prod st)).
    { unfold orderFields in Hf. now injection Hf as _ _ -> _ _ _. }
    unfold stepTail, getInfiniteAmount. rewrite Ha, Hi.
    destruct (Z.leb_spec (_amount (prod st)) (getAmountProduced (prod st1)));
      destruct (_infinite (prod st)); cbn [negb andb].
    2:{ intros [= <- <-]. split; [now split|discriminate]. }
    all: destruct (done <? _);
      [ destruct (negb _);
        [intros [= <- <-]; split; discriminate|];
        destruct (negb _);
        [intros [= <- <-]; split; discriminate|];
        destruct (negb _);
        [intros [= <- <-]; split; discriminate|]
      | ];
      intros [= <- <-]; (split; [discriminate|]); intros _;
      ((left; reflexivity) || (right; assumption)). }
  unfold step.
  destruct (getAmountProduced (prod st)
            <? getAmountProduced (prod (addLabor st))).
  - destruct (batchLoop _ _ _ _) as [[[[blocked|] count] st1]|] eqn:Hrun;
      [| |discriminate].
    + intros [= <- <-].
      apply batchLoop_result in Hrun as (_ & _ & _ & _ & Hchecks).
      destruct Hchecks as [[-> _]|[-> _]]; split; discriminate.
    + intros [= Hres].
      apply (Htail (getAmountProduced (prod st)) st1); [|exact Hres].
      now apply batchLoop_result in Hrun as (_ & _ & Hf & _).
  - intros [= Hres].
    now apply (Htail (getAmountProduced (prod st)) (addLabor st)).
Qed.

Lemma addLabor_idle st : _engineers (prod st) = 0 -> addLabor st = st.
Proof.
  destruct st as [[rules amt inf spent eng sell tally] b g seed].
  cbn [prod _engineers]. intros ->. unfold addLabor, withProd, setTimeSpent.
  cbn [prod base game rng _rules _amount _infinite _timeSpent _engineers
       _sell _randomProductionInfo].
  now rewrite Z.add_0_r.
Qed.

(** X5: with no engineer assigned [step] changes nothing at all: the state
    is returned as it was, with [PROGRESS_COMPLETE] for a bounded order
    whose count is at or above the target and [PROGRESS_NOT_COMPLETE]
    otherwise. *)
Theorem step_without_engineers (st : State) :
  _engineers (prod st) = 0 ->
  step st =
    Some (if negb (_infinite (prod st))
             && (_amount (prod st) <=? getAmountProduced (prod st))
          then PROGRESS_COMPLETE else PROGRESS_NOT_COMPLETE, st).
Proof.
  intros Hidle. unfold step. rewrite (addLabor_idle st Hidle).
  rewrite Z.ltb_irrefl. unfold stepTail, getInfiniteAmount.
  rewrite Z.ltb_irrefl, andb_comm.
  destruct (negb (_infinite (prod st)) && _); reflexivity.
Qed.

(** X6: a recipe whose time per unit is zero or less never yields a unit:
    the count is the target before and after the labor is added, so [step]
    only adds the labor, and returns [PROGRESS_COMPLETE] for a bounded
    order and [PROGRESS_NOT_COMPLETE] for an unbounded one. *)
Theorem step_instant_recipe (st : State) :
  getManufactureTime (_rules (prod st)) <= 0 ->
  step st =
    Some (if _infinite (prod st) then PROGRESS_NOT_COMPLETE
          else PROGRESS_COMPLETE, addLabor st).
Proof.
  intros Htime.
  assert (Hcount : forall p, _rules p = _rules (prod st) ->
                             getAmountProduced p = _amount p).
  { intros p Hp. unfold getAmountProduced. rewrite Hp.
    destruct (Z.ltb_spec 0 (getManufactureTime (_rules (prod st))));
      [lia|reflexivity]. }
  unfold step. rewrite !Hcount by reflexivity.
  change (_amount (prod (addLabor st))) with (_amount (prod st)).
  rewrite Z.ltb_irrefl. unfold stepTail, getInfiniteAmount.
  rewrite Hcount by reflexivity.
  change (_amount (prod (addLabor st))) with (_amount (prod st)).
  change (_infinite (prod (addLabor st))) with (_infinite (prod st)).
  rewrite Z.leb_refl, Z.ltb_irrefl.
  destruct (_infinite (prod st)); reflexivity.
Qed.

(** X7: the loop is a [do ... while]: when the count of a bounded order is
    already at or above the target before the tick and the added labor
    completes a further unit, the batch size is zero or less, yet [step]
    realizes one unit (with no cost committed for it in this tick) and
    returns [PROGRESS_COMPLETE]. *)
Theorem step_over_target_single_unit (st : State) :
  _infinite (prod st) = false ->
  _amount (prod st) <= getAmountProduced (prod st) ->
  getAmountProduced (prod st) < getAmountProduced (prod (addLabor st)) ->
  producedOf (prod (addLabor st)) (getAmountProduced (prod st)) <= 0
  /\ step st = Some (PROGRESS_COMPLETE, produceUnit (addLabor st)).
Proof.
  intros Hbounded Hover Hnew.
  assert (Hproduced :
            producedOf (prod (addLabor st)) (getAmountProduced (prod st)) <= 0).
  { unfold producedOf, getInfiniteAmount.
    change (_infinite (prod (addLabor st))) with (_infinite (prod st)).
    change (_amount (prod (addLabor st))) with (_amount (prod st)).
    rewrite Hbounded. cbn [negb]. lia. }
  split; [exact Hproduced|].
  unfold step.
  destruct (Z.ltb_spec (getAmountProduced (prod st))
              (getAmountProduced (prod (addLabor st)))) as [_|?]; [|lia].
  rewrite batchLoop_eq.
  destruct (Z.ltb_spec (0 + 1)
              (producedOf (prod (addLabor st)) (getAmountProduced (prod st))))
    as [?|_]; [lia|].
  unfold stepTail, getInfiniteAmount.
  rewrite (getAmountProduced_fields _ _ (produceUnit_fields (addLabor st))).
  destruct (orderFields_inv _ _ (produceUnit_fields (addLabor st)))
    as (_ & Ha & Hi & _).
  rewrite Ha, Hi.
  change (_infinite (prod (addLabor st))) with (_infinite (prod st)).
  change (_amount (prod (addLabor st))) with (_amount (prod st)).
  rewrite Hbounded. cbn [negb].
  destruct (Z.leb_spec (_amount (prod st))
              (getAmountProduced (prod (addLabor st)))); [reflexivity|lia].
Qed.

(** The loop that meets no failing check runs to the end of the batch. *)
Lemma batchLoop_unblocked n : forall fuel count produced st,
  produced = count + Z.of_nat (S n) ->
  Z.of_nat n <= Z.of_nat fuel ->
  (forall k, (1 <= k <= n)%nat ->
     haveEnoughMoneyForOneMoreUnit (prod (realizedUnits k st))
                                   (game (realizedUnits k st)) = true
     /\ haveEnoughMaterialsForOneMoreUnit (prod (realizedUnits k st))
                                          (base (realizedUnits k st)) = true) ->
  batchLoop fuel count produced st =
  Some (LoopFallThrough, produced, realizedUnits (S n) st).
Proof.
  induction n as [|n IH]; intros fuel count produced st Hsize Hfuel Hpass;
    rewrite batchLoop_eq.
  - rewrite realizedUnits_one.
    destruct (Z.ltb_spec (count + 1) produced) as [?|_]; [lia|].
    do 3 f_equal. lia.
  - destruct (Z.ltb_spec (count + 1) produced) as [_|?]; [|lia].
    destruct (Hpass 1%nat) as [Hmoney Hmat]; [lia|].
    rewrite realizedUnits_one in Hmoney, Hmat.
    rewrite Hmoney, Hmat. cbn [negb].
    destruct fuel as [|fuel]; [lia|].
    rewrite (realizedUnits_shift n st).
    apply IH; [lia|lia|].
    intros k Hk. destruct k as [|k]; [lia|].
    rewrite <- realizedUnits_shift. apply Hpass. lia.
Qed.

(** X8: a batch of [n] units in which every unit but the last can be
    followed by an affordable next one is realized in full: the units are
    realized in order, the cost of the next unit being committed between
    two of them, and [step] goes on after the loop from the state reached
    (where it returns [PROGRESS_COMPLETE] or checks and commits the cost of
    the unit after the batch). *)
Theorem step_unblocked_batch (st : State) (n : nat) :
  let done := getAmountProduced (prod st) in
  let st0 := addLabor st in
  done < getAmountProduced (prod st0) ->
  producedOf (prod st0) done = Z.of_nat n -> (1 <= n)%nat ->
  (forall k, (1 <= k < n)%nat ->
     haveEnoughMoneyForOneMoreUnit (prod (realizedUnits k st0))
                                   (game (realizedUnits k st0)) = true
     /\ haveEnoughMaterialsForOneMoreUnit (prod (realizedUnits k st0))
                                          (base (realizedUnits k st0)) = true) ->
  batchLoop n 0 (Z.of_nat n) st0
  = Some (LoopFallThrough, Z.of_nat n, realizedUnits n st0)
  /\ step st = Some (stepTail done (realizedUnits n st0)).
Proof.
  intros done st0 Hnew Hsize Hn Hpass. destruct n as [|n]; [lia|].
  assert (Hrun : forall fuel, Z.of_nat n <= Z.of_nat fuel ->
            batchLoop fuel 0 (Z.of_nat (S n)) st0
            = Some (LoopFallThrough, Z.of_nat (S n), realizedUnits (S n) st0)).
  { intros fuel Hfuel. apply batchLoop_unblocked; [lia|lia|].
    intros k Hk. apply Hpass. lia. }
  split; [apply Hrun; lia|].
  unfold step. fold done st0.
  destruct (Z.ltb_spec done (getAmountProduced (prod st0))) as [_|?]; [|lia].
  rewrite Hsize, Hrun by lia. reflexivity.
Qed.

Lemma produceItem_prod_no_random st i :
  getRandomProducedItems (_rules (prod st)) = [] ->
  prod (produceItem st i) = prod st.
Proof.
  intros Hnone. unfold produceItem. destruct (getSellItems (prod st));
    [reflexivity|]. cbn [prod withProd withBase].
  rewrite Hnone, bool_decide_eq_true_2 by reflexivity. reflexivity.
Qed.

Lemma produceUnit_prod_no_random st :
  getRandomProducedItems (_rules (prod st)) = [] ->
  prod (produceUnit st) = prod st.
Proof.
  intros Hnone. unfold produceUnit.
  rewrite scorePoints_prod, spawnPerson_prod.
  assert (Hfixed :
    prod match getProducedCraft (_rules (prod st)) with
         | Some ruleCraft => produceCraft ruleCraft st
         | None => fold_left produceItem (getProducedItems (_rules (prod st))) st
         end = prod st).
  { destruct (getProducedCraft _); [apply produceCraft_prod|].
    generalize (getProducedItems (_rules (prod st))). intros items.
    revert st Hnone. induction items as [|i items IH]; intros st Hnone;
      [reflexivity|].
    cbn [fold_left]. rewrite IH; rewrite produceItem_prod_no_random;
      (reflexivity || assumption). }
  unfold randomManufacture. rewrite Hfixed, Hnone.
  rewrite bool_decide_eq_true_2 by reflexivity. exact Hfixed.
Qed.

Lemma batchLoop_prod_no_random fuel : forall count produced st exit count' st',
  getRandomProducedItems (_rules (prod st)) = [] ->
  batchLoop fuel count produced st = Some (exit, count', st') ->
  prod st' = prod st.
Proof.
  induction fuel as [|fuel IH]; intros count produced st exit count' st' Hnone;
    rewrite batchLoop_eq;
    (destruct (count + 1 <? produced);
     [ destruct (negb (haveEnoughMoneyForOneMoreUnit (prod (produceUnit st))
                         (game (produceUnit st))));
       [ | destruct (negb (haveEnoughMaterialsForOneMoreUnit
                             (prod (produceUnit st)) (base (produceUnit st))))]
     | ]).
  - intros [= <- <- <-]. now apply produceUnit_prod_no_random.
  - intros [= <- <- <-]. now apply produceUnit_prod_no_random.
  - discriminate.
  - intros [= <- <- <-]. now apply produceUnit_prod_no_random.
  - intros [= <- <- <-]. now apply produceUnit_prod_no_random.
  - intros [= <- <- <-]. now apply produceUnit_prod_no_random.
  - intros Hrun. apply IH in Hrun.
    + now rewrite Hrun, startItem_prod, produceUnit_prod_no_random.
    + now rewrite startItem_prod, produceUnit_prod_no_random.
  - intros [= <- <- <-]. now apply produceUnit_prod_no_random.
Qed.

(** X9: for a recipe without random outputs the tally is never written:
    whatever [step] does, the tally it leaves is the one it found. *)
Theorem step_without_random_outputs (st : State) status st' :
  getRandomProducedItems (_rules (prod st)) = [] ->
  step st = Some (status, st') ->
  _randomProductionInfo (prod st') = _randomProductionInfo (prod st).
Proof.
  intros Hnone. unfold step.
  destruct (getAmountProduced (prod st)
            <? getAmountProduced (prod (addLabor st))).
  - destruct (batchLoop _ _ _ _) as [[[[blocked|] count] st1]|] eqn:Hrun;
      [| |discriminate].
    + intros [= <- <-].
      apply batchLoop_prod_no_random in Hrun; [|exact Hnone].
      now rewrite Hrun.
    + intros [= Htail].
      apply batchLoop_prod_no_random in Hrun; [|exact Hnone].
      rewrite <- (stepTail_prod (getAmountProduced (prod st)) st1) in Hrun.
      rewrite Htail in Hrun. cbn [snd] in Hrun. now rewrite Hrun.
  - intros [= Htail].
    pose proof (stepTail_prod (getAmountProduced (prod st)) (addLabor st))
      as Hprod.
    rewrite Htail in Hprod. cbn [snd] in Hprod. now rewrite Hprod.
Qed.

End MoreTicks.

Lemma step_keeps_order_witness :
  let st := Samples.world (Samples.order Samples.clipRecipe 3 0 50) 50 in
  let st' := @produceUnit Samples.plain (addLabor st) in
  _timeSpent (prod st') = 50 /\ _amount (prod st') = 3.
Proof.
  intros st st'.
  destruct (@step_keeps_order Samples.plain st PROGRESS_NOT_ENOUGH_MONEY st')
    as (Hlabor & _ & Hamount & _).
  - vm_compute. reflexivity.
  - rewrite Hlabor, Hamount. split; reflexivity.
Defined.

Lemma step_status_sound_witness :
  let st := Samples.world (Samples.order Samples.clipRecipe 1 9 1) 500 in
  _infinite (prod st) = false
  /\ _amount (prod st) <= getAmountProduced (prod (addLabor st)).
Proof.
  intros st.
  destruct (@step_status_sound Samples.plain st PROGRESS_COMPLETE
              (@produceUnit Samples.plain (addLabor st))) as [Hcomplete _].
  - vm_compute. reflexivity.
  - apply Hcomplete. reflexivity.
Defined.

Lemma step_without_engineers_witness :
  let st := Samples.world (Samples.order Samples.clipRecipe 3 20 0) 50 in
  @step Samples.plain st = Some (PROGRESS_NOT_COMPLETE, st).
Proof.
  intros st. rewrite (@step_without_engineers Samples.plain st).
  - vm_compute. reflexivity.
  - reflexivity.
Defined.

Lemma step_instant_recipe_witness :
  let st := Samples.world (Samples.order Samples.giftRecipe 3 0 5) 50 in
  @step Samples.plain st = Some (PROGRESS_COMPLETE, addLabor st)
  /\ getStorageItems (base (addLabor st)) = getStorageItems (base st).
Proof.
  intros st. split; [|reflexivity].
  rewrite (@step_instant_recipe Samples.plain st).
  - reflexivity.
  - vm_compute. discriminate.
Defined.

Lemma step_over_target_single_unit_witness :
  let st := Samples.world (Samples.order Samples.clipRecipe 3 50 50) 500 in
  producedOf (prod (addLabor st)) (getAmountProduced (prod st)) <= 0
  /\ @step Samples.plain st
     = Some (PROGRESS_COMPLETE, @produceUnit Samples.plain (addLabor st)).
Proof.
  intros st. apply (@step_over_target_single_unit Samples.plain st).
  - reflexivity.
  - vm_compute. discriminate.
  - vm_compute. reflexivity.
Defined.

Lemma step_unblocked_batch_witness :
  let st := Samples.world (Samples.order Samples.clipRecipe 5 0 20) 500 in
  @batchLoop Samples.plain 2 0 2 (addLabor st)
  = Some (LoopFallThrough, 2, @realizedUnits Samples.plain 2 (addLabor st))
  /\ @step Samples.plain st
     = Some (@stepTail Samples.plain 0
               (@realizedUnits Samples.plain 2 (addLabor st))).
Proof.
  intros st. apply (@step_unblocked_batch Samples.plain st 2).
  - vm_compute. reflexivity.
  - vm_compute. reflexivity.
  - lia.
  - intros k Hk. assert (k = 1%nat) as -> by lia. vm_compute.
    split; reflexivity.
Defined.

Lemma step_without_random_outputs_witness :
  let st := Samples.world (Samples.order Samples.clipRecipe 3 0 50) 50 in
  _randomProductionInfo (prod (@produceUnit Samples.plain (addLabor st)))
  = _randomProductionInfo (prod st).
Proof.
  intros st.
  apply (@step_without_random_outputs Samples.plain st
           PROGRESS_NOT_ENOUGH_MONEY).
  - reflexivity.
  - vm_compute. reflexivity.
Defined.

(** ** More on the effects of a unit *)

Section MoreUnits.
Context `{Collaborators}.

Lemma saleValue_setFunds items b g f :
  (forall i b g f,
     getSellCostAdjusted i b (setFunds f g) = getSellCostAdjusted i b g) ->
  saleValue items b (setFunds f g) = saleValue items b g.
Proof.
  intros Hprice. unfold saleValue.
  induction items as [|i items IH]; [reflexivity|].
  cbn [fold_right]. now rewrite IH, Hprice.
Qed.

(** The loop over the produced items in sell mode. *)
Lemma produceItem_all_sold (st : State) (items : list (RuleItem * Z)) :
  getSellItems (prod st) = true ->
  (forall i b g f,
     getSellCostAdjusted i b (setFunds f g) = getSellCostAdjusted i b g) ->
  fold_left produceItem items st =
  withGame (setFunds (getFunds (game st)
                      + saleValue items (base st) (game st)) (game st)) st.
Proof.
  intros Hsell Hprice. revert st Hsell.
  induction items as [|i items IH]; intros st Hsell.
  - unfold saleValue. cbn [fold_left fold_right].
    destruct st as [p b [f score idmap] seed]. unfold withGame, setFunds.
    cbn [prod base game rng getFunds researchScore ids]. now rewrite Z.add_0_r.
  - cbn [fold_left].
    assert (Hone : produceItem st i =
              withGame (setFunds (getFunds (game st)
                                  + getSellCostAdjusted (fst i) (base st)
                                                        (game st) * snd i)
                                 (game st)) st).
    { unfold produceItem. now rewrite Hsell. }
    rewrite Hone, IH by exact Hsell.
    cbn [base game withGame prod rng getFunds setFunds].
    rewrite (saleValue_setFunds items (base st) (game st) _ Hprice).
    unfold saleValue at 2. cbn [fold_right]. fold (saleValue items).
    unfold withGame, setFunds.
    cbn [prod base game rng getFunds researchScore ids].
    do 2 f_equal. unfold saleValue. lia.
Qed.

(** X10: in sell mode the produced items are neither stocked nor tallied.
    With sale prices that do not depend on the funds, the loop over the
    produced items leaves the base and the order as they are and changes
    the saved game in its funds only, which grow by the sale value of the
    items: the sum of price times quantity. *)
Theorem sale_only_credits_funds (st : State) (items : list (RuleItem * Z)) :
  getSellItems (prod st) = true ->
  (forall i b g f,
     getSellCostAdjusted i b (setFunds f g) = getSellCostAdjusted i b g) ->
  let st' := fold_left produceItem items st in
  base st' = base st
  /\ prod st' = prod st
  /\ getFunds (game st')
     = getFunds (game st) + saleValue items (base st) (game st)
  /\ researchScore (game st') = researchScore (game st)
  /\ ids (game st') = ids (game st).
Proof.
  intros Hsell Hprice st'. subst st'.
  rewrite (produceItem_all_sold st items Hsell Hprice).
  repeat split; reflexivity.
Qed.

Lemma randomLoop_invariant {B} (g : State -> B) sets :
  (forall st i, g (produceRandomItem st i) = g st) ->
  forall runningTotal roll st, g (randomLoop sets runningTotal roll st) = g st.
Proof.
  intros Hstep. induction sets as [|itemSet rest IH];
    intros runningTotal roll st; cbn [randomLoop]; [reflexivity|].
  destruct (roll <=? runningTotal + fst itemSet); [|apply IH].
  now apply fold_left_invariant.
Qed.

Lemma randomManufacture_base_invariant {B} (g : Base -> B) st :
  (forall st i, g (base (produceRandomItem st i)) = g (base st)) ->
  g (base (randomManufacture st)) = g (base st).
Proof.
  intros Hstep. unfold randomManufacture. destruct (negb _); [|reflexivity].
  destruct (generate _ _ _) as [roll seed].
  now rewrite (randomLoop_invariant (fun s => g (base s))).
Qed.

Lemma spawnPerson_crafts st :
  getCrafts (base (spawnPerson st)) = getCrafts (base st).
Proof.
  unfold spawnPerson. destruct (negb _); [|reflexivity].
  destruct (String.eqb _ "STR_SCIENTIST"); [reflexivity|].
  destruct (String.eqb _ "STR_ENGINEER"); [reflexivity|].
  destruct (getSoldier _) as [rule|]; [|reflexivity].
  destruct (selectSoldierNationalityByLocation _ _ _ _) as [nationality seed1].
  destruct (genSoldier _ _ _ _) as [[s g] seed2].
  destruct (negb _); [reflexivity|].
  destruct (genName _ _); reflexivity.
Qed.

Lemma scorePoints_base st : base (scorePoints st) = base st.
Proof. unfold scorePoints. destruct (negb _); reflexivity. Qed.


Lemma produceItem_transfers st i :
  getTransfers (base (produceItem st i)) = getTransfers (base st).
Proof.
  unfold produceItem. destruct (getSellItems (prod st)); [reflexivity|].
  cbn [base withProd withBase]. destruct (bool_decide (_ = BT_NONE));
    reflexivity.
Qed.

Lemma produceRandomItem_transfers st i :
  getTransfers (base (produceRandomItem st i)) = getTransfers (base st).
Proof.
  unfold produceRandomItem. cbn [base withProd withBase].
  destruct (bool_decide (_ = BT_NONE)); reflexivity.
Qed.

(** The state in which the person of a unit is spawned: the recipe and the
    transfers are still those the unit started with. *)
Lemma produceUnit_before_spawn st :
  exists st2,
    produceUnit st = scorePoints (spawnPerson st2)
    /\ _rules (prod st2) = _rules (prod st)
    /\ getTransfers (base st2) = getTransfers (base st).
Proof.
  unfold produceUnit.
  set (st1 := match getProducedCraft (_rules (prod st)) with
              | Some ruleCraft => produceCraft ruleCraft st
              | None => fold_left produceItem
                                  (getProducedItems (_rules (prod st))) st
              end).
  assert (Hst1 : orderFields (prod st1) = orderFields (prod st)
                 /\ getTransfers (base st1) = getTransfers (base st)).
  { subst st1. destruct (getProducedCraft (_rules (prod st))) as [ruleCraft|].
    - rewrite produceCraft_prod. split; [reflexivity|].
      unfold produceCraft. destruct (getId _ _); reflexivity.
    - split.
      + apply (fold_left_invariant produceItem
                 (fun s => orderFields (prod s))).
        intros; apply produceItem_fields.
      + apply (fold_left_invariant produceItem
                 (fun s => getTransfers (base s))).
        intros; apply produceItem_transfers. }
  destruct Hst1 as [Hfields Htransfers].
  exists (randomManufacture st1). split; [reflexivity|]. split.
  - pose proof (randomManufacture_fields st1) as Hf.
    rewrite Hfields in Hf. unfold orderFields in Hf.
    apply (f_equal (fun t => fst (fst (fst (fst (fst t)))))) in Hf.
    exact Hf.
  - rewrite (randomManufacture_base_invariant getTransfers)
      by apply produceRandomItem_transfers.
    exact Htransfers.
Qed.

(** X12: what a unit sends to the base.  A recipe without a person type
    adds no transfer; ["STR_SCIENTIST"] and ["STR_ENGINEER"] add, at the
    end of the queue, one transfer of 24 hours with one scientist or one
    engineer; any other type adds one transfer of 24 hours with a soldier
    when the rule catalog knows the type, and nothing when it does not. *)
Theorem produceUnit_transfers (st : State) :
  let type := getSpawnedPersonType (_rules (prod st)) in
  let before := getTransfers (base st) in
  let after := getTransfers (base (produceUnit st)) in
  (type = EmptyString -> after = before)
  /\ (type = "STR_SCIENTIST" ->
      after = before ++ [{| transferHours := 24; transferScientists := 1;
                            transferEngineers := 0;
                            transferSoldier := None |}])
  /\ (type = "STR_ENGINEER" ->
      after = before ++ [{| transferHours := 24; transferScientists := 0;
                            transferEngineers := 1;
                            transferSoldier := None |}])
  /\ (type <> EmptyString -> type <> "STR_SCIENTIST" ->
      type <> "STR_ENGINEER" ->
      match getSoldier type with
      | None => after = before
      | Some _ =>
          exists s, after = before ++ [{| transferHours := 24;
                                          transferScientists := 0;
                                          transferEngineers := 0;
                                          transferSoldier := Some s |}]
      end).
Proof.
  intros type before after.
  destruct (produceUnit_before_spawn st) as (st2 & Hunit & Hrules & Hqueue).
  assert (Hafter : after = getTransfers (base (spawnPerson st2))).
  { subst after. now rewrite Hunit, scorePoints_base. }
  rewrite Hafter. subst before. rewrite <- Hqueue.
  unfold spawnPerson. rewrite Hrules. fold type.
  split; [|split; [|split]].
  - intros ->. reflexivity.
  - intros ->. reflexivity.
  - intros ->. reflexivity.
  - intros Hsome Hsci Heng.
    destruct (String.eqb_spec type EmptyString); [contradiction|].
    destruct (String.eqb_spec type "STR_SCIENTIST"); [contradiction|].
    destruct (String.eqb_spec type "STR_ENGINEER"); [contradiction|].
    cbn [negb]. destruct (getSoldier type) as [rule|]; [|reflexivity].
    destruct (selectSoldierNationalityByLocation _ _ _ _)
      as [nationality seed1].
    destruct (genSoldier _ _ _ _) as [[s g] seed2].
    destruct (negb _).
    + eexists. reflexivity.
    + destruct (genName _ _) as [s' seed3]. eexists. reflexivity.
Qed.

End MoreUnits.

Lemma sale_only_credits_funds_witness :
  let st :=
    Samples.world (setSellItems true (Samples.order Samples.clipRecipe 3 0 1))
                  50 in
  let st' :=
    fold_left (@produceItem Samples.plain)
              [(Samples.clip, 2); (Samples.alloys, 3)] st in
  getStorageItems (base st') = getStorageItems (base st)
  /\ getFunds (game st') = 200.
Proof.
  intros st st'.
  destruct (@sale_only_credits_funds Samples.plain st
              [(Samples.clip, 2); (Samples.alloys, 3)])
    as (Hbase & _ & Hfunds & _).
  - reflexivity.
  - intros i b g f. reflexivity.
  - fold st' in Hbase, Hfunds. rewrite Hbase, Hfunds. split; reflexivity.
Defined.

Lemma produceUnit_transfers_witness :
  let st := Samples.world (Samples.order Samples.hireRecipe 3 10 1) 500 in
  let pilots :=
    {| getName := "STR_HIRE_PILOT"; getManufactureTime := 10;
       getManufactureCost := 100; getRequiredItems := [];
       getRequiredCrafts := []; getProducedCraft := None;
       getProducedItems := []; getRandomProducedItems := [];
       getSpawnedPersonType := "STR_PILOT";
       getSpawnedPersonName := EmptyString; getPoints := 0 |} in
  let st2 := Samples.world (Samples.order pilots 3 10 1) 500 in
  getTransfers (base (@produceUnit Samples.plain st))
  = [{| transferHours := 24; transferScientists := 1;
        transferEngineers := 0; transferSoldier := None |}]
  /\ getTransfers (base (@produceUnit Samples.plain st2)) = [].
Proof.
  intros st pilots st2. split.
  - destruct (@produceUnit_transfers Samples.plain st) as (_ & Hsci & _).
    apply Hsci. reflexivity.
  - destruct (@produceUnit_transfers Samples.plain st2) as (_ & _ & _ & Hother).
    apply Hother; vm_compute; discriminate.
Defined.

(** ** More on committing the cost of a unit *)

Section MoreCommit.
Context `{Collaborators}.

Lemma quantityOf_absent type (entries : list (RuleItem * Z)) :
  type ∉ map (fun e => item_type (fst e)) entries ->
  quantityOf type entries = 0.
Proof.
  induction entries as [|e entries IH]; intros Habsent; [reflexivity|].
  rewrite quantityOf_cons. cbn [map] in Habsent.
  apply not_elem_of_cons in Habsent as [Hne Habsent].
  destruct (String.eqb_spec (item_type (fst e)) type); [congruence|].
  rewrite IH by assumption. reflexivity.
Qed.

Lemma quantityOf_find type (entries : list (RuleItem * Z)) :
  NoDup (map (fun e => item_type (fst e)) entries) ->
  quantityOf type entries =
  match list_find (fun e => item_type (fst e) = type) entries with
  | Some (_, e) => snd e
  | None => 0
  end.
Proof.
  induction entries as [|e entries IH]; intros Hnodup; [reflexivity|].
  cbn [map] in Hnodup. apply NoDup_cons in Hnodup as [Hfresh Hnodup].
  rewrite quantityOf_cons. cbn [list_find].
  destruct (String.eqb_spec (item_type (fst e)) type) as [Heq|Hne].
  - rewrite decide_True by assumption. cbn [snd].
    rewrite quantityOf_absent; [lia|]. now rewrite <- Heq.
  - rewrite decide_False by assumption. rewrite IH by assumption.
    destruct (list_find _ entries) as [[j e']|]; reflexivity.
Qed.

(** X13: how the materials check and [startItem] fit together.  When the
    check passes (the required items being the entries of a [std::map], one
    per item, each with a positive quantity), [startItem] takes the cost
    off the funds and takes off the stock of every item exactly the
    quantity required of it, nothing for an item that is not required; no
    stock that was not negative becomes negative. *)
Theorem startItem_takes_exact (st : State) :
  let required := getRequiredItems (_rules (prod st)) in
  haveEnoughMaterialsForOneMoreUnit (prod st) (base st) = true ->
  NoDup (map (fun e => item_type (fst e)) required) ->
  (forall i qty, (i, qty) ∈ required -> 0 < qty) ->
  getFunds (game (startItem st))
  = getFunds (game st) - getManufactureCost (_rules (prod st))
  /\ (forall item,
        getItem item (getStorageItems (base (startItem st)))
        = getItem item (getStorageItems (base st))
          - quantityOf (item_type item) required)
  /\ (forall item,
        0 <= getItem item (getStorageItems (base st)) ->
        0 <= getItem item (getStorageItems (base (startItem st)))).
Proof.
  intros required Hcheck Hnodup Hpositive.
  assert (Hstock : forall i qty, (i, qty) ∈ required ->
                     qty <= getItem i (getStorageItems (base st))).
  { unfold haveEnoughMaterialsForOneMoreUnit in Hcheck.
    apply andb_true_iff in Hcheck as [Hitems _].
    rewrite forallb_forall in Hitems. intros i qty Hin.
    apply list_elem_of_In in Hin. specialize (Hitems _ Hin).
    cbn [fst snd] in Hitems. apply negb_true_iff, Z.ltb_ge in Hitems.
    exact Hitems. }
  assert (Hexact : forall item,
            getItem item (getStorageItems (base (startItem st)))
            = getItem item (getStorageItems (base st))
              - quantityOf (item_type item) required).
  { intros item. rewrite quantityOf_find by assumption.
    unfold startItem.
    cbn [prod base game withGame withBase getStorageItems setStorageItems
         setCrafts].
    fold required. unfold getItem.
    rewrite (fold_entries_lookup removeItem
               (fun qty o => match o with
                             | Some n => if qty <? n then Some (n - qty)
                                         else None
                             | None => None
                             end) removeItem_lookup) by assumption.
    destruct (list_find _ required) as [[j [i qty]]|] eqn:Hfind; [|lia].
    apply list_find_Some in Hfind as (Hat & Hkey & _). cbn [fst snd] in *.
    apply list_elem_of_lookup_2 in Hat.
    pose proof (Hstock _ _ Hat) as Hle. pose proof (Hpositive _ _ Hat) as Hq.
    unfold getItem in Hle. rewrite Hkey in Hle.
    destruct (getStorageItems (base st) !! item_type item) as [n|];
      cbn [default] in *; unfold id in *; [|lia].
    destruct (Z.ltb_spec qty n); cbn [default]; unfold id; lia. }
  split; [reflexivity|]. split; [exact Hexact|].
  intros item Hnonneg. rewrite Hexact, quantityOf_find by assumption.
  destruct (list_find _ required) as [[j [i qty]]|] eqn:Hfind; [|lia].
  apply list_find_Some in Hfind as (Hat & Hkey & _). cbn [fst snd] in *.
  apply list_elem_of_lookup_2 in Hat. pose proof (Hstock _ _ Hat) as Hle.
  unfold getItem in *. rewrite Hkey in Hle. lia.
Qed.

Lemma removeFirstCraft_count rc rc' (cs : list Craft) :
  countCrafts rc' (removeFirstCraft rc cs) =
  if decide (rc' = rc) then Nat.pred (countCrafts rc cs)
  else countCrafts rc' cs.
Proof.
  unfold countCrafts. induction cs as [|c cs IH].
  - cbn. destruct (decide (rc' = rc)); reflexivity.
  - cbn [removeFirstCraft].
    destruct (decide (craftRules c = rc)) as [Hhit|Hmiss].
    + destruct (decide (rc' = rc)) as [->|Hother].
      * rewrite filter_cons_True by assumption. reflexivity.
      * rewrite filter_cons_False by congruence. reflexivity.
    + destruct (decide (rc' = rc)) as [->|Hother].
      * rewrite !filter_cons_False by assumption. exact IH.
      * destruct (decide (craftRules c = rc')) as [Hsame|Hdiff].
        -- rewrite !filter_cons_True by assumption. cbn [length].
           now rewrite IH.
        -- rewrite !filter_cons_False by assumption. exact IH.
Qed.

Lemma removeRequiredCrafts_count rc'
  (entries : list (RuleCraft * Z)) : forall cs,
  NoDup (map fst entries) ->
  countCrafts rc'
    (fold_left (fun cs e => removeFirstCraft (fst e) cs) entries cs) =
  if decide (rc' ∈ map fst entries) then Nat.pred (countCrafts rc' cs)
  else countCrafts rc' cs.
Proof.
  induction entries as [|e entries IH]; intros cs Hnodup.
  - cbn [fold_left map]. rewrite decide_False by apply not_elem_of_nil.
    reflexivity.
  - cbn [map] in Hnodup. apply NoDup_cons in Hnodup as [Hfresh Hnodup].
    cbn [fold_left map]. rewrite IH by assumption.
    rewrite removeFirstCraft_count.
    destruct (decide (rc' = fst e)) as [->|Hother].
    + rewrite decide_False by assumption.
      rewrite decide_True by apply list_elem_of_here. reflexivity.
    + destruct (decide (rc' ∈ map fst entries)) as [Hin|Hout].
      * rewrite decide_True by (apply list_elem_of_further; assumption).
        reflexivity.
      * rewrite decide_False; [reflexivity|].
        intros Hin. apply elem_of_cons in Hin as [?|?]; contradiction.
Qed.

(** X14: [startItem] takes one craft per required craft type, whatever the
    number the entry asks for: with the required crafts being the entries
    of a [std::map] (one per craft type), the crafts of a required type are
    one fewer afterwards (none stays none), and the crafts of any other
    type are as many as before. *)
Theorem startItem_one_craft_per_type (st : State) (rc : RuleCraft) :
  let required := getRequiredCrafts (_rules (prod st)) in
  NoDup (map fst required) ->
  countCrafts rc (getCrafts (base (startItem st))) =
  if decide (rc ∈ map fst required)
  then Nat.pred (countCrafts rc (getCrafts (base st)))
  else countCrafts rc (getCrafts (base st)).
Proof.
  intros required Hnodup. unfold startItem.
  cbn [prod base game withGame withBase getCrafts setCrafts].
  now apply removeRequiredCrafts_count.
Qed.

End MoreCommit.

Lemma startItem_takes_exact_witness :
  let st := Samples.world (Samples.order Samples.clipRecipe 3 10 1) 500 in
  getFunds (game (startItem st)) = 400
  /\ getItem Samples.alloys (getStorageItems (base (startItem st))) = 8
  /\ getItem Samples.clip (getStorageItems (base (startItem st))) = 0.
Proof.
  intros st.
  destruct (@startItem_takes_exact Samples.plain st)
    as (Hfunds & Hitems & _).
  - vm_compute. reflexivity.
  - vm_compute. apply NoDup_cons.
    split; [apply not_elem_of_nil|apply NoDup_nil_2].
  - intros i qty Hin. apply list_elem_of_singleton in Hin as [= -> ->]. lia.
  - split; [rewrite Hfunds; reflexivity|].
    split; rewrite Hitems; vm_compute; reflexivity.
Defined.

Lemma startItem_one_craft_per_type_witness :
  let fleet :=
    {| getName := "STR_FLEET"; getManufactureTime := 10;
       getManufactureCost := 0; getRequiredItems := [];
       getRequiredCrafts := [(Samples.skyranger, 2)];
       getProducedCraft := None; getProducedItems := [];
       getRandomProducedItems := []; getSpawnedPersonType := EmptyString;
       getSpawnedPersonName := EmptyString; getPoints := 0 |} in
  let b := setCrafts [Samples.ranger; Samples.ranger; Samples.ranger]
                     Samples.home in
  let st := withBase b (Samples.world (Samples.order fleet 3 10 1) 0) in
  countCrafts Samples.skyranger (getCrafts (base (startItem st))) = 2%nat.
Proof.
  intros fleet b st. rewrite (startItem_one_craft_per_type st).
  - vm_compute. reflexivity.
  - vm_compute. apply NoDup_cons.
    split; [apply not_elem_of_nil|apply NoDup_nil_2].
Defined.

(** ** More on the weighted draw *)

Section MoreRoulette.
Context `{Collaborators}.

Lemma cumulativeWeight_next (sets : list (Z * list (RuleItem * Z))) :
  forall i weight items,
    sets !! S i = Some (weight, items) ->
    cumulativeWeight sets (S i) = cumulativeWeight sets i + weight.
Proof.
  induction sets as [|itemSet rest IH]; intros i weight items Hat;
    [discriminate|].
  cbn [lookup list_lookup] in Hat. rewrite cumulativeWeight_later.
  destruct i as [|i].
  - rewrite cumulativeWeight_first.
    destruct rest as [|[w its] rest]; [discriminate|].
    injection Hat as -> ->. rewrite cumulativeWeight_first. reflexivity.
  - rewrite cumulativeWeight_later, (IH i weight items Hat). lia.
Qed.

(** X15: a set whose weight is zero or negative is never drawn: for a roll
    between 1 and the total weight, the set that the random manufacture
    grants has a positive weight. *)
Theorem weighted_draw_positive_weight (st : State) :
  let sets := getRandomProducedItems (_rules (prod st)) in
  let draw := generate 1 (totalWeightOf sets) (rng st) in
  1 <= fst draw <= totalWeightOf sets ->
  exists i weight items,
    sets !! i = Some (weight, items)
    /\ 0 < weight
    /\ randomManufacture st
       = fold_left produceRandomItem items (withRng (snd draw) st).
Proof.
  intros sets draw Hroll.
  destruct (randomLoop_first sets 0 (fst draw) (withRng (snd draw) st))
    as (i & weight & items & Hat & Hreach & Hbefore & Hrun); [lia|lia|].
  exists i, weight, items. split; [exact Hat|]. split.
  - destruct i as [|i].
    + destruct sets as [|[w its] rest]; [discriminate|].
      injection Hat as -> ->. rewrite cumulativeWeight_first in Hreach.
      cbn [fst] in Hreach. lia.
    + rewrite (cumulativeWeight_next sets i weight items Hat) in Hreach.
      specialize (Hbefore i). lia.
  - unfold randomManufacture. fold sets.
    destruct sets as [|itemSet rest] eqn:Hsets; [discriminate Hat|].
    rewrite bool_decide_eq_false_2 by discriminate. cbn [negb].
    fold draw. destruct draw as [roll seed]. exact Hrun.
Qed.

End MoreRoulette.

Lemma weighted_draw_positive_weight_witness :
  let odds :=
    {| getName := "STR_ODDS"; getManufactureTime := 10;
       getManufactureCost := 0; getRequiredItems := [];
       getRequiredCrafts := []; getProducedCraft := None;
       getProducedItems := [];
       getRandomProducedItems :=
         [(0, [(Samples.alloys, 9)]); (2, [(Samples.elerium, 1)]);
          (0, [(Samples.clip, 9)])];
       getSpawnedPersonType := EmptyString;
       getSpawnedPersonName := EmptyString; getPoints := 0 |} in
  let st := Samples.world (Samples.order odds 3 10 1) 0 in
  exists i weight items,
    getRandomProducedItems odds !! i = Some (weight, items)
    /\ 0 < weight
    /\ @randomManufacture Samples.plain st
       = fold_left (@produceRandomItem Samples.plain) items (withRng 1 st).
Proof.
  intros odds st. apply (@weighted_draw_positive_weight Samples.plain st).
  vm_compute. split; discriminate.
Defined.

(** ** The stock, the funds and the score after a unit *)

Section UnitAccounts.
Context `{Collaborators}.

Lemma getItem_addItem item i qty (s : gmap string Z) :
  getItem item (addItem i qty s)
  = getItem item s
    + (if String.eqb (item_type i) (item_type item) then qty else 0).
Proof.
  unfold getItem, addItem.
  destruct (String.eqb_spec (item_type i) (item_type item)) as [->|Hne].
  - rewrite lookup_insert_eq. reflexivity.
  - rewrite lookup_insert_ne by assumption. lia.
Qed.

Lemma produceItem_stock item st i :
  getItem item (getStorageItems (base (produceItem st i)))
  = getItem item (getStorageItems (base st))
    + (if getSellItems (prod st) then 0
       else if String.eqb (item_type (fst i)) (item_type item) then snd i
            else 0).
Proof.
  unfold produceItem. destruct (getSellItems (prod st)); [simpl; lia|].
  cbn [base withProd withBase].
  destruct (bool_decide (_ = BT_NONE)); apply getItem_addItem.
Qed.

Lemma produceItem_all_stock item items : forall st,
  getItem item (getStorageItems (base (fold_left produceItem items st)))
  = getItem item (getStorageItems (base st))
    + (if getSellItems (prod st) then 0
       else quantityOf (item_type item) items).
Proof.
  induction items as [|i items IH]; intros st.
  - unfold quantityOf. simpl. destruct (getSellItems (prod st)); lia.
  - cbn [fold_left]. rewrite IH, produceItem_stock, quantityOf_cons.
    destruct (orderFields_inv _ _ (produceItem_fields st i))
      as (_ & _ & _ & _ & _ & Hsell).
    unfold getSellItems. rewrite Hsell.
    destruct (_sell (prod st)); lia.
Qed.

Lemma produceRandomItem_stock item st i :
  getItem item (getStorageItems (base (produceRandomItem st i)))
  = getItem item (getStorageItems (base st))
    + (if String.eqb (item_type (fst i)) (item_type item) then snd i else 0).
Proof. rewrite produceRandomItem_storage. apply getItem_addItem. Qed.

Lemma produceRandomItem_all_stock item items : forall st,
  getItem item (getStorageItems (base (fold_left produceRandomItem items st)))
  = getItem item (getStorageItems (base st))
    + quantityOf (item_type item) items.
Proof.
  induction items as [|i items IH]; intros st.
  - unfold quantityOf. simpl. lia.
  - cbn [fold_left]. rewrite IH, produceRandomItem_stock, quantityOf_cons. lia.
Qed.

Lemma randomLoop_stock item sets : forall runningTotal roll st,
  getItem item (getStorageItems (base (randomLoop sets runningTotal roll st)))
  = getItem item (getStorageItems (base st))
    + quantityOf (item_type item) (selectItemSet sets runningTotal roll).
Proof.
  induction sets as [|itemSet rest IH]; intros runningTotal roll st.
  - unfold quantityOf. simpl. lia.
  - cbn [randomLoop selectItemSet].
    destruct (roll <=? runningTotal + fst itemSet); [|apply IH].
    apply produceRandomItem_all_stock.
Qed.

Lemma randomManufacture_stock item st :
  getItem item (getStorageItems (base (randomManufacture st)))
  = getItem item (getStorageItems (base st))
    + quantityOf (item_type item) (drawnItemSet st).
Proof.
  unfold randomManufacture, drawnItemSet.
  destruct (getRandomProducedItems (_rules (prod st))) as [|s sets] eqn:Hsets.
  - unfold quantityOf. simpl. lia.
  - rewrite bool_decide_eq_false_2 by discriminate. cbn [negb].
    destruct (generate _ _ _) as [roll seed]. cbn [fst].
    now rewrite randomLoop_stock.
Qed.

Lemma spawnPerson_storage st :
  getStorageItems (base (spawnPerson st)) = getStorageItems (base st).
Proof.
  unfold spawnPerson. destruct (negb _); [|reflexivity].
  destruct (String.eqb _ "STR_SCIENTIST"); [reflexivity|].
  destruct (String.eqb _ "STR_ENGINEER"); [reflexivity|].
  destruct (getSoldier _) as [rule|]; [|reflexivity].
  destruct (selectSoldierNationalityByLocation _ _ _ _) as [nationality seed1].
  destruct (genSoldier _ _ _ _) as [[s g] seed2].
  destruct (negb _); [reflexivity|].
  destruct (genName _ _); reflexivity.
Qed.

(** The draw of a unit is the one read off the state the unit starts from:
    the fixed outputs touch neither the recipe nor the generator. *)
Lemma drawnItemSet_after_fixed st :
  drawnItemSet
    match getProducedCraft (_rules (prod st)) with
    | Some ruleCraft => produceCraft ruleCraft st
    | None => fold_left produceItem (getProducedItems (_rules (prod st))) st
    end
  = drawnItemSet st.
Proof.
  unfold drawnItemSet.
  destruct (getProducedCraft (_rules (prod st))) as [ruleCraft|].
  - now rewrite produceCraft_rng, produceCraft_prod.
  - rewrite (fold_left_invariant produceItem rng _ produceItem_rng).
    destruct (orderFields_inv _ _
                (fold_left_invariant produceItem
                   (fun s => orderFields (prod s))
                   (getProducedItems (_rules (prod st)))
                   produceItem_fields st)) as (Hrules & _).
    cbv beta in Hrules. now rewrite Hrules.
Qed.

(** X16: the stock after a unit.  For every item, a realized unit adds to
    its stock the quantity of it among the fixed produced items, unless the
    recipe produces a craft or the output is sold, and the quantity of it
    in the set drawn by the random manufacture, which is stocked even when
    the output is sold. *)
Theorem produceUnit_stock (st : State) (item : RuleItem) :
  getItem item (getStorageItems (base (produceUnit st)))
  = getItem item (getStorageItems (base st))
    + match getProducedCraft (_rules (prod st)) with
      | Some _ => 0
      | None => if getSellItems (prod st) then 0
                else quantityOf (item_type item)
                                (getProducedItems (_rules (prod st)))
      end
    + quantityOf (item_type item) (drawnItemSet st).
Proof.
  unfold produceUnit. rewrite scorePoints_base, spawnPerson_storage.
  rewrite randomManufacture_stock, drawnItemSet_after_fixed.
  destruct (getProducedCraft (_rules (prod st))) as [ruleCraft|].
  - unfold produceCraft. destruct (getId _ _) as [id g].
    cbn [base withGame withBase getStorageItems setCrafts]. lia.
  - rewrite produceItem_all_stock. reflexivity.
Qed.

Lemma produceItem_all_kept_game items : forall st,
  getSellItems (prod st) = false ->
  game (fold_left produceItem items st) = game st.
Proof.
  induction items as [|i items IH]; intros st Hkeep; [reflexivity|].
  cbn [fold_left].
  assert (Hone : game (produceItem st i) = game st).
  { unfold produceItem. rewrite Hkeep. reflexivity. }
  rewrite IH, Hone; [reflexivity|].
  destruct (orderFields_inv _ _ (produceItem_fields st i))
    as (_ & _ & _ & _ & _ & Hsell).
  unfold getSellItems in *. now rewrite Hsell.
Qed.

Lemma randomManufacture_game st : game (randomManufacture st) = game st.
Proof.
  unfold randomManufacture. destruct (negb _); [|reflexivity].
  destruct (generate _ _ _) as [roll seed].
  now rewrite (randomLoop_invariant game).
Qed.

(** X17: the funds and the score after a unit, for collaborators that
    leave both alone when they number a craft or generate a soldier, and
    sale prices that do not depend on the funds.  A realized unit never
    takes anything off the funds: they grow by the sale value of the fixed
    produced items when these are sold, and are unchanged otherwise.  The
    research score grows by the points of the recipe, which may be
    negative. *)
Theorem produceUnit_funds_and_score (st : State) :
  (forall g name,
     getFunds (snd (getId g name)) = getFunds g
     /\ researchScore (snd (getId g name)) = researchScore g) ->
  (forall g rule nationality seed,
     getFunds (snd (fst (genSoldier g rule nationality seed))) = getFunds g
     /\ researchScore (snd (fst (genSoldier g rule nationality seed)))
        = researchScore g) ->
  (forall i b g f,
     getSellCostAdjusted i b (setFunds f g) = getSellCostAdjusted i b g) ->
  getFunds (game (produceUnit st))
  = getFunds (game st)
    + match getProducedCraft (_rules (prod st)) with
      | Some _ => 0
      | None => if getSellItems (prod st)
                then saleValue (getProducedItems (_rules (prod st)))
                               (base st) (game st)
                else 0
      end
  /\ researchScore (game (produceUnit st))
     = researchScore (game st) + getPoints (_rules (prod st)).
Proof.
  intros Hid Hsoldier Hprice.
  assert (Hspawn : forall s,
            getFunds (game (spawnPerson s)) = getFunds (game s)
            /\ researchScore (game (spawnPerson s)) = researchScore (game s)).
  { intros s. unfold spawnPerson. destruct (negb _); [|now split].
    destruct (String.eqb _ "STR_SCIENTIST"); [now split|].
    destruct (String.eqb _ "STR_ENGINEER"); [now split|].
    destruct (getSoldier _) as [rule|]; [|now split].
    destruct (selectSoldierNationalityByLocation _ _ _ _)
      as [nationality seed1].
    pose proof (Hsoldier (game s) rule nationality seed1) as Hkept.
    destruct (genSoldier _ _ _ _) as [[sol g] seed2]. cbn [fst snd] in Hkept.
    destruct (negb _); [exact Hkept|].
    destruct (genName _ _); exact Hkept. }
  assert (Hscore : forall s,
            getFunds (game (scorePoints s)) = getFunds (game s)
            /\ researchScore (game (scorePoints s))
               = researchScore (game s) + getPoints (_rules (prod s))).
  { intros s. unfold scorePoints.
    destruct (Z.eqb_spec (getPoints (_rules (prod s))) 0) as [->|_];
      cbn [negb]; split; (reflexivity || lia). }
  unfold produceUnit.
  set (st1 := match getProducedCraft (_rules (prod st)) with
              | Some ruleCraft => produceCraft ruleCraft st
              | None => fold_left produceItem
                                  (getProducedItems (_rules (prod st))) st
              end).
  destruct (Hscore (spawnPerson (randomManufacture st1))) as [-> ->].
  destruct (Hspawn (randomManufacture st1)) as [-> ->].
  rewrite spawnPerson_prod, randomManufacture_game.
  assert (Hsame : _rules (prod (randomManufacture st1)) = _rules (prod st)).
  { destruct (orderFields_inv _ _ (randomManufacture_fields st1))
      as (-> & _).
    subst st1. destruct (getProducedCraft (_rules (prod st))).
    - now rewrite produceCraft_prod.
    - now destruct (orderFields_inv _ _
                      (fold_left_invariant produceItem
                         (fun s => orderFields (prod s))
                         (getProducedItems (_rules (prod st)))
                         produceItem_fields st)) as (-> & _). }
  rewrite Hsame. subst st1.
  destruct (getProducedCraft (_rules (prod st))) as [ruleCraft|].
  - unfold produceCraft.
    pose proof (Hid (game st) (craft_type ruleCraft)) as Hkept.
    destruct (getId _ _) as [id g]. cbn [snd] in Hkept.
    cbn [game withGame withBase]. destruct Hkept as [-> ->]. split; lia.
  - destruct (getSellItems (prod st)) eqn:Hsell.
    + rewrite (produceItem_all_sold st _ Hsell Hprice).
      cbn [game withGame getFunds researchScore setFunds]. split; lia.
    + rewrite produceItem_all_kept_game by exact Hsell. split; lia.
Qed.

End UnitAccounts.

Lemma produceUnit_funds_and_score_witness :
  let st :=
    Samples.world
      (setSellItems true (Samples.order Samples.salvageRecipe 3 10 1)) 50 in
  getFunds (game (@produceUnit Samples.plain st)) = 110
  /\ researchScore (game (@produceUnit Samples.plain st)) = 5.
Proof.
  intros st.
  destruct (@produceUnit_funds_and_score Samples.plain st) as [Hfunds Hscore].
  - intros g name. split; reflexivity.
  - intros g rule nationality seed. split; reflexivity.
  - intros i b g f. reflexivity.
  - rewrite Hfunds, Hscore. vm_compute. split; reflexivity.
Defined.

(** ** The roster after a unit *)

Section UnitRoster.
Context `{Collaborators}.

Lemma reusedFor_cons i items c :
  reusedFor (i :: items) c
  = reusedFor items (if bool_decide (item_battleType (fst i) = BT_NONE)
                     then reuseItem c (fst i) else c).
Proof. reflexivity. Qed.

Lemma map_reusedFor_nil (cs : list Craft) : map (reusedFor []) cs = cs.
Proof. apply map_id. Qed.

Lemma produceRandomItem_crafts st i :
  getCrafts (base (produceRandomItem st i))
  = map (reusedFor [i]) (getCrafts (base st)).
Proof.
  unfold produceRandomItem, reusedFor. cbn [base withProd withBase fold_left].
  destruct (bool_decide (item_battleType (fst i) = BT_NONE)).
  - reflexivity.
  - cbn [getCrafts setStorageItems]. symmetry. apply map_id.
Qed.

Lemma produceRandomItem_all_crafts items : forall st,
  getCrafts (base (fold_left produceRandomItem items st))
  = map (reusedFor items) (getCrafts (base st)).
Proof.
  induction items as [|i items IH]; intros st.
  - cbn [fold_left]. symmetry. apply map_reusedFor_nil.
  - cbn [fold_left]. rewrite IH, produceRandomItem_crafts, map_map.
    reflexivity.
Qed.

Lemma randomLoop_crafts sets : forall runningTotal roll st,
  getCrafts (base (randomLoop sets runningTotal roll st))
  = map (reusedFor (selectItemSet sets runningTotal roll))
        (getCrafts (base st)).
Proof.
  induction sets as [|itemSet rest IH]; intros runningTotal roll st.
  - cbn [randomLoop selectItemSet]. symmetry. apply map_reusedFor_nil.
  - cbn [randomLoop selectItemSet].
    destruct (roll <=? runningTotal + fst itemSet); [|apply IH].
    apply produceRandomItem_all_crafts.
Qed.

Lemma randomManufacture_crafts st :
  getCrafts (base (randomManufacture st))
  = map (reusedFor (drawnItemSet st)) (getCrafts (base st)).
Proof.
  unfold randomManufacture, drawnItemSet.
  destruct (getRandomProducedItems (_rules (prod st))) as [|s sets] eqn:Hsets.
  - cbn [bool_decide negb selectItemSet]. rewrite bool_decide_eq_true_2
      by reflexivity. symmetry. apply map_reusedFor_nil.
  - rewrite bool_decide_eq_false_2 by discriminate. cbn [negb].
    destruct (generate _ _ _) as [roll seed]. cbn [fst].
    now rewrite randomLoop_crafts.
Qed.

Lemma produceItem_crafts st i :
  getCrafts (base (produceItem st i))
  = if getSellItems (prod st) then getCrafts (base st)
    else map (reusedFor [i]) (getCrafts (base st)).
Proof.
  unfold produceItem, reusedFor. destruct (getSellItems (prod st));
    [reflexivity|].
  cbn [base withProd withBase fold_left].
  destruct (bool_decide (item_battleType (fst i) = BT_NONE)).
  - reflexivity.
  - cbn [getCrafts setStorageItems]. symmetry. apply map_id.
Qed.

Lemma produceItem_all_crafts items : forall st,
  getCrafts (base (fold_left produceItem items st))
  = if getSellItems (prod st) then getCrafts (base st)
    else map (reusedFor items) (getCrafts (base st)).
Proof.
  induction items as [|i items IH]; intros st.
  - cbn [fold_left]. rewrite map_reusedFor_nil.
    destruct (getSellItems (prod st)); reflexivity.
  - cbn [fold_left]. rewrite IH, produceItem_crafts.
    destruct (orderFields_inv _ _ (produceItem_fields st i))
      as (_ & _ & _ & _ & _ & Hsell).
    unfold getSellItems. rewrite Hsell.
    destruct (_sell (prod st)); [reflexivity|].
    rewrite map_map. reflexivity.
Qed.

(** X11: the roster after a unit.  A realized unit never takes a craft
    off the roster nor reorders it: every craft that was there is still
    there, in its place, after [reuseItem] was called on it for the stocked
    items of battle type [BT_NONE] (the fixed produced items unless they
    are sold, then the items of the drawn set).  A recipe that produces a
    craft appends exactly one craft, built from its rule with the next
    identifier, before the drawn items are offered for reuse; so the roster
    is one craft longer for a craft recipe and as long as before
    otherwise. *)
Theorem produceUnit_roster (st : State) :
  getCrafts (base (produceUnit st))
  = map (reusedFor (drawnItemSet st))
        match getProducedCraft (_rules (prod st)) with
        | Some ruleCraft =>
            getCrafts (base st)
            ++ [checkup
                  (initFixedWeapons
                     (newCraft ruleCraft (base st)
                        (fst (getId (game st) (craft_type ruleCraft)))))]
        | None =>
            if getSellItems (prod st) then getCrafts (base st)
            else map (reusedFor (getProducedItems (_rules (prod st))))
                     (getCrafts (base st))
        end
  /\ length (getCrafts (base (produceUnit st)))
     = (length (getCrafts (base st))
        + match getProducedCraft (_rules (prod st)) with
          | Some _ => 1
          | None => 0
          end)%nat.
Proof.
  assert (Hroster :
    getCrafts (base (produceUnit st))
    = map (reusedFor (drawnItemSet st))
          match getProducedCraft (_rules (prod st)) with
          | Some ruleCraft =>
              getCrafts (base st)
              ++ [checkup
                    (initFixedWeapons
                       (newCraft ruleCraft (base st)
                          (fst (getId (game st) (craft_type ruleCraft)))))]
          | None =>
              if getSellItems (prod st) then getCrafts (base st)
              else map (reusedFor (getProducedItems (_rules (prod st))))
                       (getCrafts (base st))
          end).
  { unfold produceUnit. rewrite scorePoints_base, spawnPerson_crafts.
    rewrite randomManufacture_crafts, drawnItemSet_after_fixed.
    destruct (getProducedCraft (_rules (prod st))) as [ruleCraft|].
    - unfold produceCraft. destruct (getId _ _) as [id g].
      reflexivity.
    - now rewrite produceItem_all_crafts. }
  split; [exact Hroster|].
  rewrite Hroster, length_map.
  destruct (getProducedCraft (_rules (prod st))) as [ruleCraft|].
  - rewrite length_app. reflexivity.
  - destruct (getSellItems (prod st)); [lia|]. rewrite length_map. lia.
Qed.

End UnitRoster.
